(** * Amazon price tracker: the fetch, parse, compare, persist, notify pipeline

    A shallow embedding of [amazon_tracker/tracker.py].  Python floats are
    IEEE 754 binary64 numbers and are embedded as Rocq's primitive floats, so
    every comparison and subtraction below is the one the interpreter
    performs.  The tracker object and the part of the outside world it talks
    to (the products file, the network, the mail server, the console) are one
    explicit state that every method threads through. *)

From Stdlib Require Import Floats ZArith PArith Ascii Uint63 DecimalString.
From stdpp Require Import base option list strings.

Local Open Scope Z_scope.

(** ** Exceptions and results *)

(** The exception classes that the code can meet. *)
Inductive exn : Type :=
  | KeyError
  | TypeError
  | ValueError
  | OSError
  | JSONDecodeError
  | RequestException
  | SMTPException.

(** The result of evaluating an expression: a value, or a raised exception. *)
Inductive result (A : Type) : Type :=
  | Ok (a : A)
  | Raise (e : exn).
Arguments Ok {A} a.
Arguments Raise {A} e.

#[global] Instance result_ret : MRet result := fun A a => Ok a.
#[global] Instance result_bind : MBind result := fun A B f m =>
  match m with
  | Ok a => f a
  | Raise e => Raise e
  end.

(** [try_all] runs the elements of a list comprehension in order; the first
    exception ends it. *)
Fixpoint try_all {A B : Type} (f : A -> result B) (l : list A) : result (list B) :=
  match l with
  | [] => Ok []
  | a :: l' => b ← f a; bs ← try_all f l'; Ok (b :: bs)
  end.

(** ** Truthiness of the values the code tests with [if] and [and] *)

(** [bool(x)] of a float: false exactly for [0.0] and [-0.0]. *)
Definition float_truthy (x : float) : bool := negb (PrimFloat.eqb x 0%float).

(** [bool(s)] of a str: false exactly for the empty string. *)
Definition str_truthy (s : string) : bool :=
  match s with
  | EmptyString => false
  | String _ _ => true
  end.

(** [bool(v)] of a value that may be [None]. *)
Definition truthy {A : Type} (t : A -> bool) (v : option A) : bool :=
  match v with
  | None => false
  | Some a => t a
  end.

(** ** Strings: [str.strip()] and [str.replace(c, '')] *)

(** [str.isspace] on the code points below 256. *)
Definition is_space (c : Ascii.ascii) : bool :=
  let n := Ascii.N_of_ascii c in
  ((9 <=? n) && (n <=? 13) || (28 <=? n) && (n <=? 32) || (n =? 133) || (n =? 160))%N.

Fixpoint lstrip (s : string) : string :=
  match s with
  | EmptyString => EmptyString
  | String c s' => if is_space c then lstrip s' else s
  end.

Fixpoint rstrip (s : string) : string :=
  match s with
  | EmptyString => EmptyString
  | String c s' =>
      match rstrip s' with
      | EmptyString => if is_space c then EmptyString else String c EmptyString
      | r => String c r
      end
  end.

Definition strip (s : string) : string := rstrip (lstrip s).

(** [s.replace(c, '')] for a one-character [c]. *)
Fixpoint remove_char (c : Ascii.ascii) (s : string) : string :=
  match s with
  | EmptyString => EmptyString
  | String d s' => if Ascii.eqb c d then remove_char c s' else String d (remove_char c s')
  end.

(** ** Product *)

(** The fields carry the types of the data model: [title], [current_price]
    and [last_checked] may be [None]. *)
Record Product : Type := mkProduct {
  url : string;
  target_price : float;
  title : option string;
  current_price : option float;
  last_checked : option float
}.

(** [Product.__init__(url, target_price, title=None, current_price=None)] *)
Definition Product_init (u : string) (t : float)
    (ti : option string) (cp : option float) : Product :=
  mkProduct u t ti cp None.

(** A JSON object of the products file, as far as the code reads it: for
    each of the five keys the value stored under it, or [None] when the
    object has no such key.  The values have the types of the file format:
    a string for [url], a number for [target_price], and a string or number
    or [null] for the other three.  Entries under other keys are never read
    and are left out. *)
Record dict : Type := mkDict {
  entry_url : option string;
  entry_target_price : option float;
  entry_title : option (option string);
  entry_current_price : option (option float);
  entry_last_checked : option (option float)
}.

(** [Product.to_dict] *)
Definition to_dict (p : Product) : dict :=
  mkDict (Some (url p)) (Some (target_price p)) (Some (title p))
    (Some (current_price p)) (Some (last_checked p)).

(** [data[key]]: a missing key raises KeyError. *)
Definition getitem {A : Type} (entry : option A) : result A :=
  match entry with
  | Some v => Ok v
  | None => Raise KeyError
  end.

(** [Product.from_dict]: the five values are read in this order and stored
    as they are. *)
Definition from_dict (data : dict) : result Product :=
  u ← getitem (entry_url data);
  t ← getitem (entry_target_price data);
  let product := Product_init u t None None in
  ti ← getitem (entry_title data);
  cp ← getitem (entry_current_price data);
  lc ← getitem (entry_last_checked data);
  Ok (mkProduct (url product) (target_price product) ti cp lc).

(** ** The tracker and its environment *)

(** What [soup.find] returns on a fetched page: the text of the element with
    id [productTitle] and of the first [span] of class [a-price-whole], each
    [None] when the page has no such element. *)
Record page : Type := mkPage {
  title_element : option string;
  price_element : option string
}.

Record response : Type := mkResponse {
  status_code : Z;
  content : page
}.

Record email_item : Type := mkItem {
  item_title : option string;
  item_current_price : float;
  item_target_price : float;
  item_savings : float;
  item_url : string
}.

(** The multipart message: its From and To headers and, per product, what
    both the HTML and the plain text part list. *)
Record email : Type := mkEmail {
  mail_from : string;
  mail_to : option string;
  mail_items : list email_item
}.

(** What [print_colored] is called with. *)
Inductive message : Type :=
  | MsgErrorLoading (e : exn)
  | MsgErrorSaving (e : exn)
  | MsgFetching
  | MsgStatusCode (code : Z)
  | MsgFailedFetch (code : Z)
  | MsgBlocked
  | MsgFoundTitle (t : string)
  | MsgTitleNotFound
  | MsgFoundPrice (price : float)
  | MsgErrorConverting (price_text : string)
  | MsgPriceNotFound
  | MsgAntiBot
  | MsgNetworkError (e : exn)
  | MsgWillRetry
  | MsgErrorGetting (e : exn)
  | MsgReceiverNotSet
  | MsgUpdated (n : nat)
  | MsgProduct (t : option string)
  | MsgBelowTarget (price : option float)
  | MsgCurrentPrice (price : option float)
  | MsgEmailSent
  | MsgEmailFailed (e : exn).

(** The contents of [products.json]: no file, a file that cannot be read as
    JSON ([open] or [json.load] raises [e]), or the array of objects that
    [json.dump] wrote and [json.load] returns. *)
Inductive file_state : Type :=
  | Missing
  | Unreadable (e : exn)
  | Stored (data : list dict).

(** The attributes of [AmazonPriceTracker] that the pipeline reads or writes,
    followed by the environment: [disk] is the products file and
    [disk_write_error] the exception that opening it for writing raises, if
    any; [net n u] is what the [n]-th call of [session.get], made for URL
    [u], returns or raises; [fetched] lists the URLs requested so far;
    [smtp] is what logging in with the sender's credentials and sending a
    message does; [outbox] lists the messages sent; [console] lists what
    was printed. *)
Record State : Type := mkState {
  email_sender : string;
  email_password : string;
  email_receiver : option string;
  products : list Product;
  disk : file_state;
  disk_write_error : option exn;
  net : nat -> string -> result response;
  fetched : list string;
  smtp : string -> string -> email -> result unit;
  outbox : list email;
  console : list message
}.

Definition with_receiver (r : option string) (s : State) : State :=
  mkState (email_sender s) (email_password s) r (products s) (disk s)
    (disk_write_error s) (net s) (fetched s) (smtp s) (outbox s) (console s).

Definition with_products (ps : list Product) (s : State) : State :=
  mkState (email_sender s) (email_password s) (email_receiver s) ps (disk s)
    (disk_write_error s) (net s) (fetched s) (smtp s) (outbox s) (console s).

Definition with_disk (d : file_state) (s : State) : State :=
  mkState (email_sender s) (email_password s) (email_receiver s) (products s) d
    (disk_write_error s) (net s) (fetched s) (smtp s) (outbox s) (console s).

Definition with_fetched (l : list string) (s : State) : State :=
  mkState (email_sender s) (email_password s) (email_receiver s) (products s)
    (disk s) (disk_write_error s) (net s) l (smtp s) (outbox s) (console s).

Definition with_outbox (l : list email) (s : State) : State :=
  mkState (email_sender s) (email_password s) (email_receiver s) (products s)
    (disk s) (disk_write_error s) (net s) (fetched s) (smtp s) l (console s).

Definition print_colored (m : message) (s : State) : State :=
  mkState (email_sender s) (email_password s) (email_receiver s) (products s)
    (disk s) (disk_write_error s) (net s) (fetched s) (smtp s) (outbox s)
    (console s ++ [m]).

(** [if l:] on a list. *)
Definition nonempty {A : Type} (l : list A) : bool :=
  match l with
  | [] => false
  | _ :: _ => true
  end.

(** ** Product store *)

(** [load_products] *)
Definition load_products (s : State) : State :=
  match disk s with
  | Missing => s
  | Unreadable e => with_products [] (print_colored (MsgErrorLoading e) s)
  | Stored data =>
      match try_all from_dict data with
      | Ok ps => with_products ps s
      | Raise e => with_products [] (print_colored (MsgErrorLoading e) s)
      end
  end.

(** [save_products] *)
Definition save_products (s : State) : State :=
  match disk_write_error s with
  | None => with_disk (Stored (to_dict <$> products s)) s
  | Some e => print_colored (MsgErrorSaving e) s
  end.

(** [add_product_with_data]; [now] is what [time.time()] returns. *)
Definition add_product_with_data (now : float) (u : string) (t : float)
    (ti : option string) (cp : option float) (s : State) : bool * State :=
  let product := Product_init u t None None in
  let product := mkProduct (url product) (target_price product) ti cp (Some now) in
  (true, save_products (with_products (products s ++ [product]) s)).

(** [remove_product] *)
Definition remove_product (index : Z) (s : State) : bool * State :=
  if (0 <=? index) && (index <? Z.of_nat (length (products s))) then
    (true, save_products (with_products (delete (Z.to_nat index) (products s)) s))
  else (false, s).

(** [get_product_list] *)
Definition get_product_list (s : State) : list Product := products s.

(** [set_receiver_email] *)
Definition set_receiver_email (e : option string) (s : State) : State :=
  with_receiver e s.

(** ** Notifier *)

(** One entry of the message: [savings = target_price - current_price] and
    the [:.2f] formats raise TypeError on a [None] price. *)
Definition compose_item (p : Product) : result email_item :=
  match current_price p with
  | None => Raise TypeError
  | Some c =>
      Ok (mkItem (title p) c (target_price p)
            (PrimFloat.sub (target_price p) c) (url p))
  end.

(** The body of the [try] block of [send_email]. *)
Definition send_email_body (ps : list Product) (s : State) : result unit * State :=
  match try_all compose_item ps with
  | Raise e => (Raise e, s)
  | Ok items =>
      let msg := mkEmail (email_sender s) (email_receiver s) items in
      match smtp s (email_sender s) (email_password s) msg with
      | Raise e => (Raise e, s)
      | Ok _ => (Ok (), print_colored MsgEmailSent (with_outbox (outbox s ++ [msg]) s))
      end
  end.

(** [send_email] *)
Definition send_email (ps : list Product) (s : State) : result unit * State :=
  if negb (nonempty ps) then (Ok (), s)
  else
    match send_email_body ps s with
    | (Ok u, s1) => (Ok u, s1)
    | (Raise e, s1) => (Ok (), print_colored (MsgEmailFailed e) s1)
    end.

(** ** Fetching, parsing and checking *)

Section Pipeline.

(** The builtin [float] on a str: [None] stands for ValueError. *)
Variable float_of_string : string -> option float.

(** [session.get(url, timeout=10)].  The pause before the request and the
    change of the User-Agent header act on the request only; the request is
    recorded in [fetched] and answered by [net]. *)
Definition session_get (u : string) (s : State) : result response * State :=
  (net s (length (fetched s)) u, with_fetched (fetched s ++ [u]) s).

(** What [get_product_price] does with the page of a 200 response. *)
Definition parse (pg : page) (s : State) : (option float * option string) * State :=
  let '(title, s) :=
    match title_element pg with
    | Some t => let t := strip t in (Some t, print_colored (MsgFoundTitle t) s)
    | None => (None, print_colored MsgTitleNotFound s)
    end in
  match price_element pg with
  | Some price_text =>
      let price_text := strip price_text in
      let price_text := remove_char "."%char (remove_char ","%char price_text) in
      match float_of_string price_text with
      | Some price => ((Some price, title), print_colored (MsgFoundPrice price) s)
      | None => ((None, None), print_colored (MsgErrorConverting price_text) s)
      end
  | None => ((None, None), print_colored MsgAntiBot (print_colored MsgPriceNotFound s))
  end.

(** [get_product_price]: returns [(price, title)]. *)
Definition get_product_price (u : string) (s : State)
    : (option float * option string) * State :=
  let s := print_colored MsgFetching s in
  match session_get u s with
  | (Ok page, s) =>
      let s := print_colored (MsgStatusCode (status_code page)) s in
      if negb (status_code page =? 200) then
        let s := print_colored (MsgFailedFetch (status_code page)) s in
        let s := if status_code page =? 503 then print_colored MsgBlocked s else s in
        ((None, None), s)
      else parse (content page) s
  | (Raise RequestException, s) =>
      ((None, None), print_colored MsgWillRetry (print_colored (MsgNetworkError RequestException) s))
  | (Raise e, s) => ((None, None), print_colored (MsgErrorGetting e) s)
  end.

(** [add_product] *)
Definition add_product (now : float) (u : string) (t : float) (s : State)
    : bool * State :=
  let '((price, title), s) := get_product_price u s in
  if truthy float_truthy price && truthy str_truthy title then
    add_product_with_data now u t title price s
  else (false, s).

(** The test that makes [update_prices] skip a product:
    [not force and product.last_checked and
     (current_time - product.last_checked) < 3600]. *)
Definition recently_checked (force : bool) (current_time : float)
    (product : Product) : bool :=
  negb force &&
  match last_checked product with
  | None => false
  | Some lc =>
      float_truthy lc && PrimFloat.ltb (PrimFloat.sub current_time lc) 3600%float
  end.

(** One iteration of the loop of [update_prices]: the product as the
    iteration leaves it, and whether it was appended to [updated_products]. *)
Definition update_product (force : bool) (current_time : float)
    (product : Product) (s : State) : (Product * bool) * State :=
  if recently_checked force current_time product then ((product, false), s)
  else
    let '((price, title), s) := get_product_price (url product) s in
    if truthy float_truthy price && truthy str_truthy title then
      ((mkProduct (url product) (target_price product) title price
          (Some current_time), true), s)
    else ((product, false), s).

(** The loop of [update_prices] over the products from the current one on:
    the products as the loop leaves them, and [updated_products]. *)
Fixpoint update_loop (force : bool) (current_time : float)
    (ps : list Product) (s : State) : (list Product * list Product) * State :=
  match ps with
  | [] => (([], []), s)
  | product :: rest =>
      let '((product', updated), s) := update_product force current_time product s in
      let '((ps', updated_products), s) := update_loop force current_time rest s in
      ((product' :: ps',
        if updated then product' :: updated_products else updated_products), s)
  end.

(** [update_prices]; [current_time] is what [time.time()] returns.  The loop
    assigns to the product objects of [self.products] in place and nothing
    reads the store before the loop ends, so the products are put back when
    it ends; [updated_products] holds the updated objects as the loop leaves
    them. *)
Definition update_prices (force : bool) (current_time : float) (s : State)
    : list Product * State :=
  let '((ps', updated_products), s) :=
    update_loop force current_time (products s) s in
  let s := with_products ps' s in
  let s := if nonempty updated_products then save_products s else s in
  (updated_products, s).

(** [product.current_price <= product.target_price]: comparing [None] with
    a float raises TypeError. *)
Definition below_target (product : Product) : result bool :=
  match current_price product with
  | None => Raise TypeError
  | Some c => Ok (PrimFloat.leb c (target_price product))
  end.

(** The loop of [check_prices] that collects [price_drops]. *)
Fixpoint collect_price_drops (ps : list Product) (s : State)
    : result (list Product) * State :=
  match ps with
  | [] => (Ok [], s)
  | product :: rest =>
      match below_target product with
      | Raise e => (Raise e, s)
      | Ok below =>
          let s := print_colored (MsgProduct (title product)) s in
          match below_target product with
          | Raise e => (Raise e, s)
          | Ok again =>
              let s :=
                if again then print_colored (MsgBelowTarget (current_price product)) s
                else print_colored (MsgCurrentPrice (current_price product)) s in
              match collect_price_drops rest s with
              | (Ok price_drops, s) =>
                  (Ok (if below then product :: price_drops else price_drops), s)
              | (Raise e, s) => (Raise e, s)
              end
          end
      end
  end.

(** The part of [check_prices] from the call of [update_prices] to the end
    of the loop: the value of [price_drops] when the loop is left. *)
Definition compute_price_drops (force_update : bool) (current_time : float)
    (s : State) : result (list Product) * State :=
  let '(updated, s) := update_prices force_update current_time s in
  let s := if nonempty updated then print_colored (MsgUpdated (length updated)) s else s in
  collect_price_drops (products s) s.

(** [check_prices]; [current_time] is what [time.time()] returns inside
    [update_prices]. *)
Definition check_prices (force_update : bool) (current_time : float) (s : State)
    : result unit * State :=
  if negb (truthy str_truthy (email_receiver s)) then
    (Ok (), print_colored MsgReceiverNotSet s)
  else
    match compute_price_drops force_update current_time s with
    | (Raise e, s) => (Raise e, s)
    | (Ok price_drops, s) =>
        if nonempty price_drops then send_email price_drops s else (Ok (), s)
    end.

End Pipeline.

(** ** Concrete environments *)

(** A fragment of the builtin [float], used to run the model on concrete
    pages: a string of one to fifteen decimal digits converts exactly. *)
Definition digit_value (c : ascii) : option Z :=
  let n := Z.of_N (N_of_ascii c) in
  if (48 <=? n) && (n <=? 57) then Some (n - 48) else None.

Fixpoint digits_value (acc : Z) (s : string) : option Z :=
  match s with
  | EmptyString => Some acc
  | String c s' => d ← digit_value c; digits_value (10 * acc + d) s'
  end.

Definition decimal_float (s : string) : option float :=
  match s with
  | EmptyString => None
  | String _ _ =>
      if (String.length s <=? 15)%nat then
        n ← digits_value 0 s; Some (PrimFloat.of_uint63 (Uint63.of_Z n))
      else None
  end.

(** A network that answers every request with status 200 and one page. *)
Definition serve (pg : page) : nat -> string -> result response :=
  fun _ _ => Ok (mkResponse 200 pg).

(** A network on which every request fails. *)
Definition offline : nat -> string -> result response :=
  fun _ _ => Raise RequestException.

(** A network whose first request fails and whose later ones are served. *)
Definition flaky (pg : page) : nat -> string -> result response :=
  fun n _ =>
    match n with
    | O => Raise RequestException
    | S _ => Ok (mkResponse 200 pg)
    end.

Definition smtp_accepts : string -> string -> email -> result unit :=
  fun _ _ _ => Ok ().

Definition smtp_rejects : string -> string -> email -> result unit :=
  fun _ _ _ => Raise SMTPException.

(** A tracker right after start-up, with the given receiver and products. *)
Definition tracker (receiver : option string) (ps : list Product)
    (n : nat -> string -> result response)
    (m : string -> string -> email -> result unit) : State :=
  mkState "sender@example.com" "app-password" receiver ps Missing None n [] m [] [].

Definition widget_page : page := mkPage (Some "  Widget  ") (Some "45.").
Definition untitled_page : page := mkPage None (Some "1,299.").
Definition blank_title_page : page := mkPage (Some "   ") (Some "1,299.").
Definition cheap_page : page := mkPage (Some "E-book") (Some "0.").
Definition unpriced_page : page := mkPage (Some "Widget") None.
Definition garbled_page : page := mkPage (Some "Widget") (Some "N/A").

Definition widget : Product :=
  mkProduct "u1" 50 (Some "Widget") (Some 60%float) (Some 1700000000%float).
Definition gadget : Product :=
  mkProduct "u2" 20 (Some "Gadget") (Some 15%float) (Some 1700000000%float).
Definition newcomer : Product := mkProduct "u3" 10 None None None.

(** Trackers, not yet given a receiver, that follow [widget] on a network
    serving one of the pages above. *)
Definition blank_title_store : State :=
  tracker None [widget] (serve blank_title_page) smtp_accepts.

Definition cheap_store : State :=
  tracker None [widget] (serve cheap_page) smtp_accepts.

Definition unpriced_store : State :=
  tracker None [widget] (serve unpriced_page) smtp_accepts.

Definition garbled_store : State :=
  tracker None [widget] (serve garbled_page) smtp_accepts.

Definition untitled_store : State :=
  tracker None [widget] (serve untitled_page) smtp_accepts.

(** A tracker that starts to follow [newcomer] while the network is down for
    the first request, and one that follows [widget] and [newcomer] on a
    working network. *)
Definition flaky_store : State :=
  tracker None [newcomer] (flaky widget_page) smtp_accepts.

Definition working_store : State :=
  tracker None [widget; newcomer] (serve widget_page) smtp_accepts.

(** Trackers with a receiver: one whose mail server refuses the message, and
    one following a product that has no price yet on a dead network. *)
Definition unheard_store : State :=
  tracker (Some "me@example.com") [widget; gadget] offline smtp_rejects.

Definition unpriced_newcomer_store : State :=
  tracker (Some "me@example.com") [gadget; newcomer] offline smtp_accepts.

Definition priced_store : State :=
  tracker (Some "me@example.com") [widget; gadget] (serve widget_page) smtp_accepts.

(** ** Vocabulary of the properties *)

(** [frame s s']: from [s] to [s'] only the request log and the console
    changed; the tracker's attributes, the products file, the network, the
    mail server and the outbox are the same. *)
Definition frame (s s' : State) : Prop :=
  email_sender s' = email_sender s /\
  email_password s' = email_password s /\
  email_receiver s' = email_receiver s /\
  products s' = products s /\
  disk s' = disk s /\
  disk_write_error s' = disk_write_error s /\
  net s' = net s /\
  smtp s' = smtp s /\
  outbox s' = outbox s.

(** The product with [title], [current_price] and [last_checked] overwritten
    together. *)
Definition overwritten (current_time : float) (price : option float)
    (title : option string) (p : Product) : Product :=
  mkProduct (url p) (target_price p) title price (Some current_time).

(** The success test of [update_prices] and [add_product]: [price and title]. *)
Definition fetch_succeeded (price : option float) (title : option string) : bool :=
  truthy float_truthy price && truthy str_truthy title.

(** The products that [update_prices] requests a page for. *)
Definition attempted (force : bool) (current_time : float)
    (ps : list Product) : list Product :=
  List.filter (fun p => negb (recently_checked force current_time p)) ps.

(** [current_price <= target_price] and [current_price > target_price] as
    Python evaluates them on a product that has a price. *)
Definition at_or_below_target (p : Product) : Prop :=
  exists c, current_price p = Some c /\ PrimFloat.leb c (target_price p) = true.

Definition above_target (p : Product) : Prop :=
  exists c, current_price p = Some c /\ PrimFloat.ltb (target_price p) c = true.

(** The test of the loop of [check_prices] on a product that has a price. *)
Definition price_dropped (p : Product) : bool :=
  match current_price p with
  | None => false
  | Some c => PrimFloat.leb c (target_price p)
  end.

(** ** Start-up and the menu of [tracker.py] *)

(** [AmazonPriceTracker.__init__], run in the environment of [w]: the
    attributes are set, the store starts empty and [load_products] fills it
    from the products file.  The session that [setup_session] creates is the
    one [net] answers for, retries included. *)
Definition AmazonPriceTracker_init (sender password : string)
    (receiver : option string) (w : State) : State :=
  load_products
    (mkState sender password receiver [] (disk w) (disk_write_error w) (net w)
       (fetched w) (smtp w) (outbox w) (console w)).

(** What the menu at the end of [tracker.py] calls on the tracker: choice 1
    is [add_product], choice 2 [remove_product], choice 3 [check_prices()]
    and choice 4 [set_receiver_email].  [now] is the time of the call. *)
Inductive action : Type :=
  | Add (now : float) (u : string) (target : float)
  | Remove (index : Z)
  | Check (now : float)
  | SetReceiver (address : string).

(** ** The menus of [cli.py] *)

(** [str(n)] of an int. *)
Definition str_of_int (n : Z) : string := NilZero.string_of_int (Z.to_int n).

(** [format_time] on an int number of seconds. *)
Definition format_time (seconds : Z) : string :=
  let hours := seconds / 3600 in
  let minutes := (seconds mod 3600) / 60 in
  let seconds := seconds mod 60 in
  if 0 <? hours then
    str_of_int hours +:+ "h " +:+ str_of_int minutes +:+ "m " +:+ str_of_int seconds +:+ "s"
  else if 0 <? minutes then
    str_of_int minutes +:+ "m " +:+ str_of_int seconds +:+ "s"
  else str_of_int seconds +:+ "s".

(** What [display_countdown] does, in order: it writes a frame showing the
    time left, sleeps one second, and at the end clears the line. *)
Inductive countdown_event : Type :=
  | Frame (time_left : string)
  | Sleep
  | ClearLine.

(** [display_countdown] on an int; [fuel] bounds the number of tests of the
    [while] condition, and [None] means that it ran out. *)
Fixpoint display_countdown (fuel : nat) (seconds : Z) : option (list countdown_event) :=
  match fuel with
  | O => None
  | S fuel' =>
      if 0 <? seconds then
        rest ← display_countdown fuel' (seconds - 1);
        Some (Frame (format_time seconds) :: Sleep :: rest)
      else Some [ClearLine]
  end.

(** [s[:n]] *)
Fixpoint str_take (n : nat) (s : string) : string :=
  match n, s with
  | S n', String c s' => String c (str_take n' s')
  | _, _ => EmptyString
  end.

(** [s.split(c)[0]] for a one-character [c]. *)
Fixpoint before_char (c : ascii) (s : string) : string :=
  match s with
  | EmptyString => EmptyString
  | String d s' => if Ascii.eqb c d then EmptyString else String d (before_char c s')
  end.

(** The lines that [format_product_display] joins, with what each one shows. *)
Inductive display_line : Type :=
  | LineTitle (index : option Z) (shown : string)
  | LineCurrentPrice (price : option float)
  | LineTargetPrice (target : float)
  | LineSavings (savings : float)
  | LineUrl (shown : string)
  | LineLastChecked (shown : string).

(** What the input loops of the menu print. *)
Inductive menu_message : Type :=
  | PromptPrice (current : option float)
  | MsgPriceNotPositive
  | MsgNotANumber
  | PromptProductNumber
  | MsgInvalidProductNumber.

Section Menu.

(** The builtins [float] and [int] on a str: [None] stands for ValueError. *)
Variable float_of_string : string -> option float.
Variable int_of_string : string -> option Z.

(** [time.strftime('%Y-%m-%d %H:%M:%S', time.localtime(t))], which raises
    on a time that the platform cannot convert. *)
Variable strftime_localtime : float -> result string.

(** [format_product_display]: [product.title[:100]] raises TypeError on a
    [None] title and [current_price - target_price] on a [None] price. *)
Definition format_product_display (product : Product) (index : option Z)
    (show_url : bool) : result (list display_line) :=
  match title product with
  | None => Raise TypeError
  | Some t =>
      let lines := [LineTitle index (str_take 100 t +:+ "...")] in
      let lines := lines ++ [LineCurrentPrice (current_price product)] in
      let lines := lines ++ [LineTargetPrice (target_price product)] in
      match current_price product with
      | None => Raise TypeError
      | Some c =>
          let savings := PrimFloat.sub c (target_price product) in
          let lines :=
            if PrimFloat.ltb 0 savings then lines ++ [LineSavings savings] else lines in
          let lines :=
            if show_url then
              lines ++ [LineUrl (str_take 100 (before_char "?" (url product)) +:+ "...")]
            else lines in
          match last_checked product with
          | Some lc =>
              if float_truthy lc then
                match strftime_localtime lc with
                | Ok last_check => Ok (lines ++ [LineLastChecked last_check])
                | Raise e => Raise e
                end
              else Ok lines
          | None => Ok lines
          end
      end
  end.

(** [get_valid_price], reading the lines of [inputs] in turn: the price, or
    [None] when [input] meets the end of the input (EOFError); the lines not
    read; what was printed. *)
Fixpoint get_valid_price (current_price : option float) (inputs : list string)
    : option float * list string * list menu_message :=
  match inputs with
  | [] =>
      (None, [], [PromptPrice (if truthy float_truthy current_price
                               then current_price else None)])
  | line :: inputs' =>
      let prompt := PromptPrice (if truthy float_truthy current_price
                                 then current_price else None) in
      let price_input := strip line in
      if negb (str_truthy price_input) && truthy float_truthy current_price then
        (current_price, inputs', [prompt])
      else
        match float_of_string price_input with
        | Some price =>
            if PrimFloat.leb price 0 then
              let '(r, rest, out) := get_valid_price current_price inputs' in
              (r, rest, prompt :: MsgPriceNotPositive :: out)
            else (Some price, inputs', [prompt])
        | None =>
            let '(r, rest, out) := get_valid_price current_price inputs' in
            (r, rest, prompt :: MsgNotANumber :: out)
        end
  end.

(** The loop of the menu that asks which product to remove
    ([index = int(input(...).strip()) - 1], accepted when
    [0 <= index < len(products)]), with the same results. *)
Fixpoint read_product_number (n : nat) (inputs : list string)
    : option Z * list string * list menu_message :=
  match inputs with
  | [] => (None, [], [PromptProductNumber])
  | line :: inputs' =>
      match int_of_string (strip line) with
      | Some k =>
          let index := k - 1 in
          if (0 <=? index) && (index <? Z.of_nat n) then
            (Some index, inputs', [PromptProductNumber])
          else
            let '(r, rest, out) := read_product_number n inputs' in
            (r, rest, PromptProductNumber :: MsgInvalidProductNumber :: out)
      | None =>
          let '(r, rest, out) := read_product_number n inputs' in
          (r, rest, PromptProductNumber :: MsgNotANumber :: out)
      end
  end.

(** One choice of the menu of [tracker.py], and a session of choices. *)
Definition perform (a : action) (s : State) : State :=
  match a with
  | Add now u target => (add_product float_of_string now u target s).2
  | Remove index => (remove_product index s).2
  | Check now => (check_prices float_of_string false now s).2
  | SetReceiver address => set_receiver_email (Some address) s
  end.

Definition session (actions : list action) (s : State) : State :=
  fold_left (fun s a => perform a s) actions s.

End Menu.

(** A stand-in for the conversion of a time stamp to local time, on
    concrete inputs. *)
Definition fixed_local_time (t : float) : result string :=
  if PrimFloat.ltb t 0 then Raise OSError else Ok "2023-11-14 22:13:20".

(** The stand-in for the builtin [int] on concrete inputs: strings of one
    to fifteen decimal digits. *)
Definition decimal_int (s : string) : option Z :=
  match s with
  | EmptyString => None
  | String _ _ => if (String.length s <=? 15)%nat then digits_value 0 s else None
  end.

(** A tracker whose products file holds the object of [widget] and an
    object without title. *)
Definition untitled_gadget : dict :=
  mkDict (Some "u2") (Some 20%float) None (Some (Some 15%float))
    (Some (Some 1700000000%float)).

Definition half_written_store : State :=
  mkState "sender@example.com" "app-password" None [newcomer]
    (Stored [to_dict widget; untitled_gadget]) None
    offline [] smtp_accepts [] [].

(** ** Vocabulary of the further properties *)

(** The products file holds exactly the store in memory. *)
Definition synced (s : State) : Prop :=
  disk s = Stored (to_dict <$> products s).

(** Starting the program again recovers the store in memory. *)
Definition persisted (s : State) : Prop :=
  products (AmazonPriceTracker_init (email_sender s) (email_password s) None s)
    = products s.

(** A product as a successful fetch leaves it: title and price present and
    truthy, and a time stamp. *)
Definition fetched_product (p : Product) : Prop :=
  truthy str_truthy (title p) = true /\
  truthy float_truthy (current_price p) = true /\
  last_checked p <> None.

(** The entry of the message agrees with the product. *)
Definition item_of (p : Product) (it : email_item) : Prop :=
  item_title it = title p /\
  current_price p = Some (item_current_price it) /\
  item_target_price it = target_price p /\
  item_savings it = PrimFloat.sub (target_price p) (item_current_price it) /\
  item_url it = url p.

(** The object has all five keys. *)
Definition complete (d : dict) : Prop :=
  entry_url d <> None /\ entry_target_price d <> None /\ entry_title d <> None /\
  entry_current_price d <> None /\ entry_last_checked d <> None.

(** The character occurs in the string. *)
Fixpoint str_has (c : ascii) (s : string) : bool :=
  match s with
  | EmptyString => false
  | String d s' => Ascii.eqb c d || str_has c s'
  end.

(** The seconds that a countdown from [seconds] shows: [seconds],
    [seconds - 1], ..., [1]. *)
Definition countdown_from (seconds : Z) : list Z :=
  (fun i => seconds - Z.of_nat i) <$> seq 0 (Z.to_nat seconds).

(** A line that [get_valid_price] accepts as a new price. *)
Definition valid_price_line (f : string -> option float) (line : string) : Prop :=
  exists price, f (strip line) = Some price /\ PrimFloat.leb price 0 = false.

(** A tracker with a receiver that follows [newcomer], which has no price
    yet, ahead of [gadget], on a dead network. *)
Definition newcomer_first_store : State :=
  tracker (Some "me@example.com") [newcomer; gadget] offline smtp_accepts.

(** The product has a non-zero last_checked that lies less than 3600
    seconds before [now]. *)
Definition checked_within_hour (now : float) (p : Product) : Prop :=
  exists lc,
    last_checked p = Some lc /\ float_truthy lc = true /\
    PrimFloat.ltb (PrimFloat.sub now lc) 3600 = true.

(** What [get_valid_price] makes of one line: the price it returns on
    reading it, if it accepts the line. *)
Definition line_yields (f : string -> option float) (cur : option float)
    (line : string) (price : float) : Prop :=
  (strip line = "" /\ truthy float_truthy cur = true /\ cur = Some price) \/
  (~ (strip line = "" /\ truthy float_truthy cur = true) /\
   f (strip line) = Some price /\ PrimFloat.leb price 0 = false).

(** * Properties *)

(** ** Persistence *)

Lemma from_dict_to_dict (p : Product) : from_dict (to_dict p) = Ok p.
Proof. destruct p as [u t [ti|] [cp|] [lc|]]; reflexivity. Qed.

Lemma try_all_from_dict (ps : list Product) :
  try_all from_dict (to_dict <$> ps) = Ok ps.
Proof.
  induction ps as [|p ps IH]; [reflexivity|].
  cbn [fmap list_fmap try_all]. rewrite from_dict_to_dict.
  cbn [mbind result_bind]. fold (fmap (M:=list) to_dict ps). rewrite IH. reflexivity.
Qed.

Lemma save_products_products (s : State) : products (save_products s) = products s.
Proof. unfold save_products. destruct (disk_write_error s); reflexivity. Qed.

Lemma load_products_stored (s : State) (ps : list Product) :
  disk s = Stored (to_dict <$> ps) -> load_products s = with_products ps s.
Proof.
  intros Hd. unfold load_products. rewrite Hd, try_all_from_dict. reflexivity.
Qed.

(** C3: when the products file can be written, [save_products] followed by
    [load_products] reconstructs the store from the file: the same products
    in the same order, hence the same length and at every index the same
    url, target_price, title, current_price and last_checked, null or not.
    The products come from the file and not from memory: loading the saved
    file into a tracker that holds any other products gives the saved
    ones. *)
Theorem save_load_roundtrip (s : State) :
  disk_write_error s = None ->
  disk (save_products s) = Stored (to_dict <$> products s) /\
  products (load_products (save_products s)) = products s /\
  length (products (load_products (save_products s))) = length (products s) /\
  (forall i : nat,
     products (load_products (save_products s)) !! i = products s !! i) /\
  (forall s' : State,
     disk s' = disk (save_products s) ->
     products (load_products s') = products s /\
     forall (i : nat) (p : Product),
       products s !! i = Some p ->
       exists q,
         products (load_products s') !! i = Some q /\
         url q = url p /\ target_price q = target_price p /\
         title q = title p /\ current_price q = current_price p /\
         last_checked q = last_checked p).
Proof.
  intros Hw.
  assert (Hd : disk (save_products s) = Stored (to_dict <$> products s)).
  { unfold save_products. rewrite Hw. reflexivity. }
  assert (Hp : forall s', disk s' = disk (save_products s) ->
                 products (load_products s') = products s).
  { intros s' Hs'. rewrite Hd in Hs'.
    rewrite (load_products_stored s' (products s) Hs'). reflexivity. }
  rewrite (Hp (save_products s) eq_refl).
  split; [exact Hd|]. split; [reflexivity|]. split; [reflexivity|].
  split; [intros i; reflexivity|].
  intros s' Hs'. rewrite (Hp s' Hs'). split; [reflexivity|].
  intros i p Hi. exists p. auto 10.
Qed.

Lemma save_load_roundtrip_witness :
  disk_write_error (tracker None [widget; newcomer] offline smtp_accepts) = None /\
  products (load_products (save_products
    (tracker None [widget; newcomer] offline smtp_accepts))) = [widget; newcomer] /\
  products (load_products (with_products [gadget] (save_products
    (tracker None [widget; newcomer] offline smtp_accepts)))) = [widget; newcomer].
Proof.
  split; [reflexivity|]. split.
  - exact (proj1 (proj2
      (save_load_roundtrip (tracker None [widget; newcomer] offline smtp_accepts)
         eq_refl))).
  - apply (proj2 (proj2 (proj2 (proj2
      (save_load_roundtrip (tracker None [widget; newcomer] offline smtp_accepts)
         eq_refl)))) (with_products [gadget] (save_products
           (tracker None [widget; newcomer] offline smtp_accepts)))).
    reflexivity.
Defined.

(** C6: [remove_product index] on a store of [n] products.  When
    [0 <= index < n] it returns [True], deletes the product at [index]
    (the products before it keep their place, those after it move up by
    one) and saves the store; for any other index, negative ones included,
    it returns [False] and changes nothing at all. *)
Theorem remove_product_spec (index : Z) (s : State) :
  (0 <= index < Z.of_nat (length (products s)) ->
   (remove_product index s).1 = true /\
   S (length (products (remove_product index s).2)) = length (products s) /\
   (forall j : nat, (j < Z.to_nat index)%nat ->
      products (remove_product index s).2 !! j = products s !! j) /\
   (forall j : nat, (Z.to_nat index <= j)%nat ->
      products (remove_product index s).2 !! j = products s !! S j) /\
   (disk_write_error s = None ->
      disk (remove_product index s).2 =
        Stored (to_dict <$> products (remove_product index s).2))) /\
  (~ (0 <= index < Z.of_nat (length (products s))) ->
   remove_product index s = (false, s)).
Proof.
  unfold remove_product. split.
  - intros [Hlo Hhi].
    assert (Hin : (0 <=? index) && (index <? Z.of_nat (length (products s))) = true).
    { apply andb_true_intro. split; [apply Z.leb_le | apply Z.ltb_lt]; assumption. }
    rewrite Hin. cbn [fst snd]. rewrite save_products_products. cbn [products with_products].
    split; [reflexivity|]. split; [|split; [|split]].
    + rewrite length_delete; [|apply lookup_lt_is_Some; lia].
      assert (0 < length (products s))%nat by lia. lia.
    + intros j Hj. apply list_lookup_delete_lt. exact Hj.
    + intros j Hj. apply list_lookup_delete_ge. exact Hj.
    + intros Hw. unfold save_products. cbn [disk_write_error with_products].
      rewrite Hw. reflexivity.
  - intros Hout.
    destruct ((0 <=? index) && (index <? Z.of_nat (length (products s)))) eqn:E;
      [|reflexivity].
    apply andb_prop in E. destruct E as [E1 E2].
    apply Z.leb_le in E1. apply Z.ltb_lt in E2. exfalso. apply Hout. split; assumption.
Qed.

Lemma remove_product_spec_witness :
  (products (remove_product 1 (tracker None [widget; gadget; newcomer] offline smtp_accepts)).2
     !! 1%nat = Some newcomer) /\
  remove_product 5 (tracker None [widget; gadget; newcomer] offline smtp_accepts)
    = (false, tracker None [widget; gadget; newcomer] offline smtp_accepts) /\
  remove_product (-1) (tracker None [widget; gadget; newcomer] offline smtp_accepts)
    = (false, tracker None [widget; gadget; newcomer] offline smtp_accepts).
Proof.
  split; [|split].
  - refine (proj1 (proj2 (proj2 (proj2 (proj1
      (remove_product_spec 1 (tracker None [widget; gadget; newcomer] offline smtp_accepts))
      _)))) 1%nat _).
    + cbn. lia.
    + cbn. lia.
  - apply (proj2 (remove_product_spec 5
      (tracker None [widget; gadget; newcomer] offline smtp_accepts))).
    cbn. lia.
  - apply (proj2 (remove_product_spec (-1)
      (tracker None [widget; gadget; newcomer] offline smtp_accepts))).
    cbn. lia.
Defined.

(** ** Frame lemmas *)

Lemma frame_refl (s : State) : frame s s.
Proof. repeat split. Qed.

Lemma frame_trans (s1 s2 s3 : State) : frame s1 s2 -> frame s2 s3 -> frame s1 s3.
Proof.
  unfold frame. intros H1 H2.
  destruct H1 as (?&?&?&?&?&?&?&?&?), H2 as (?&?&?&?&?&?&?&?&?).
  repeat split; congruence.
Qed.

Lemma frame_print (m : message) (s : State) : frame s (print_colored m s).
Proof. repeat split. Qed.

Lemma parse_frame (f : string -> option float) (pg : page) (s : State) :
  frame s (parse f pg s).2 /\ fetched (parse f pg s).2 = fetched s.
Proof.
  unfold parse.
  destruct (title_element pg), (price_element pg) as [txt|]; cbn;
    try destruct (f _); cbn; split; first [reflexivity | apply frame_refl | repeat split].
Qed.

Lemma get_product_price_frame (f : string -> option float) (u : string) (s : State) :
  frame s (get_product_price f u s).2 /\
  fetched (get_product_price f u s).2 = fetched s ++ [u].
Proof.
  unfold get_product_price, session_get.
  change (net (print_colored MsgFetching s)) with (net s).
  change (fetched (print_colored MsgFetching s)) with (fetched s).
  destruct (net s (length (fetched s)) u) as [r|e]; cbn -[parse].
  - destruct (negb (status_code r =? 200)).
    + destruct (status_code r =? 503); cbn; split; first [reflexivity | repeat split].
    + match goal with |- context [parse f ?pg ?s0] =>
        destruct (parse_frame f pg s0) as [Hf Hl] end.
      split; [|exact Hl].
      eapply frame_trans; [|exact Hf]. repeat split.
  - destruct e; cbn; split; first [reflexivity | repeat split].
Qed.

(** ** The refresh loop *)

Lemma update_product_skipped (f : string -> option float) (force : bool)
    (now : float) (p : Product) (s : State) :
  recently_checked force now p = true ->
  update_product f force now p s = ((p, false), s).
Proof. intros H. unfold update_product. rewrite H. reflexivity. Qed.

Lemma update_product_attempted (f : string -> option float) (force : bool)
    (now : float) (p : Product) (s : State) :
  recently_checked force now p = false ->
  update_product f force now p s =
    let r := get_product_price f (url p) s in
    if fetch_succeeded r.1.1 r.1.2
    then ((overwritten now r.1.1 r.1.2 p, true), r.2)
    else ((p, false), r.2).
Proof.
  intros H. unfold update_product. rewrite H.
  destruct (get_product_price f (url p) s) as [[price ti] s1]. reflexivity.
Qed.

Lemma update_product_frame (f : string -> option float) (force : bool)
    (now : float) (p : Product) (s : State) :
  frame s (update_product f force now p s).2 /\
  fetched (update_product f force now p s).2 =
    fetched s ++ (url <$> attempted force now [p]).
Proof.
  unfold attempted. cbn [List.filter].
  destruct (recently_checked force now p) eqn:E.
  - rewrite update_product_skipped by exact E. cbn.
    rewrite app_nil_r. split; [apply frame_refl | reflexivity].
  - rewrite update_product_attempted by exact E. cbn zeta.
    destruct (get_product_price_frame f (url p) s) as [Hf Hl].
    destruct (fetch_succeeded _ _); cbn; split; assumption.
Qed.

Lemma update_loop_app (f : string -> option float) (force : bool) (now : float)
    (l1 l2 : list Product) (s : State) :
  update_loop f force now (l1 ++ l2) s =
    let r1 := update_loop f force now l1 s in
    let r2 := update_loop f force now l2 r1.2 in
    ((r1.1.1 ++ r2.1.1, r1.1.2 ++ r2.1.2), r2.2).
Proof.
  revert s. induction l1 as [|p l1 IH]; intros s.
  - cbn. destruct (update_loop f force now l2 s) as [[a u] s']. reflexivity.
  - cbn [app update_loop].
    destruct (update_product f force now p s) as [[p' b] s1].
    rewrite IH. cbn zeta.
    destruct (update_loop f force now l1 s1) as [[a1 u1] s2]. cbn [fst snd].
    destruct (update_loop f force now l2 s2) as [[a2 u2] s3]. cbn [fst snd].
    destruct b; reflexivity.
Qed.

Lemma update_loop_frame (f : string -> option float) (force : bool) (now : float)
    (ps : list Product) (s : State) :
  frame s (update_loop f force now ps s).2 /\
  fetched (update_loop f force now ps s).2 =
    fetched s ++ (url <$> attempted force now ps) /\
  length (update_loop f force now ps s).1.1 = length ps.
Proof.
  revert s. induction ps as [|p ps IH]; intros s.
  - cbn. rewrite app_nil_r. split; [apply frame_refl|]. split; reflexivity.
  - cbn [update_loop].
    destruct (update_product_frame f force now p s) as [Hf Hl].
    destruct (update_product f force now p s) as [[p' b] s1]. cbn [snd] in Hf, Hl.
    destruct (IH s1) as (Hf' & Hl' & Hn).
    destruct (update_loop f force now ps s1) as [[a u] s2]. cbn [fst snd] in *.
    split; [eapply frame_trans; eassumption|]. split.
    + rewrite Hl', Hl, <- app_assoc. f_equal.
      unfold attempted. cbn [List.filter].
      destruct (negb (recently_checked force now p)); cbn; reflexivity.
    + cbn. f_equal. exact Hn.
Qed.

Lemma update_loop_one (f : string -> option float) (force : bool) (now : float)
    (p : Product) (s : State) :
  update_loop f force now [p] s =
    let r := update_product f force now p s in
    (([r.1.1], if r.1.2 then [r.1.1] else []), r.2).
Proof.
  cbn. destruct (update_product f force now p s) as [[p' b] s1]. reflexivity.
Qed.

Lemma update_prices_products (f : string -> option float) (force : bool)
    (now : float) (s : State) :
  products (update_prices f force now s).2 =
    (update_loop f force now (products s) s).1.1 /\
  fetched (update_prices f force now s).2 =
    fetched (update_loop f force now (products s) s).2 /\
  outbox (update_prices f force now s).2 = outbox s /\
  email_receiver (update_prices f force now s).2 = email_receiver s /\
  (update_prices f force now s).1 = (update_loop f force now (products s) s).1.2.
Proof.
  unfold update_prices.
  destruct (update_loop_frame f force now (products s) s) as (Hf & _ & _).
  destruct (update_loop f force now (products s) s) as [[a u] s1]. cbn [fst snd] in *.
  destruct Hf as (_&_&Hr&_&_&_&_&_&Ho).
  unfold save_products.
  destruct (nonempty u); [destruct (disk_write_error _)|]; cbn; auto.
Qed.

Lemma float_neq (x y : float) :
  PrimFloat.eqb x x = true -> PrimFloat.eqb x y = false -> x <> y.
Proof. intros Hx Hy E. rewrite <- E, Hx in Hy. discriminate Hy. Qed.

Lemma some_float_neq (x y : float) :
  PrimFloat.eqb x x = true -> PrimFloat.eqb x y = false -> Some x <> Some y.
Proof.
  intros Hx Hy E. apply (float_neq x y Hx Hy).
  exact (f_equal (fun o => match o with Some z => z | None => x end) E).
Qed.

Lemma fetch_succeeded_absent (price : option float) (ti : option string) :
  price = None \/ ti = None -> fetch_succeeded price ti = false.
Proof.
  unfold fetch_succeeded. intros [-> | ->]; [reflexivity|].
  apply andb_false_r.
Qed.

Lemma fetch_succeeded_falsy (price : float) (ti : string) :
  PrimFloat.eqb price 0 = true \/ ti = "" ->
  fetch_succeeded (Some price) (Some ti) = false.
Proof.
  unfold fetch_succeeded, truthy, float_truthy. intros [H | ->].
  - rewrite H. reflexivity.
  - apply andb_false_r.
Qed.

(** The product at the place of [p] when [update_prices] returns: [p] is
    handled by one run of the loop body, started in the state that the
    iterations for the products before it have left. *)
Lemma update_prices_at (f : string -> option float) (force : bool) (now : float)
    (l1 l2 : list Product) (p : Product) (s : State) :
  products s = l1 ++ p :: l2 ->
  products (update_prices f force now s).2 !! length l1 =
    Some (update_product f force now p (update_loop f force now l1 s).2).1.1 /\
  (update_prices f force now s).1 =
    (update_loop f force now l1 s).1.2 ++
    (if (update_product f force now p (update_loop f force now l1 s).2).1.2
     then [(update_product f force now p (update_loop f force now l1 s).2).1.1]
     else []) ++
    (update_loop f force now l2
       (update_product f force now p (update_loop f force now l1 s).2).2).1.2.
Proof.
  intros Hs.
  destruct (update_prices_products f force now s) as (Hp & _ & _ & _ & Hu).
  rewrite Hp, Hu, Hs.
  change (p :: l2) with ([p] ++ l2).
  rewrite update_loop_app. cbn zeta.
  rewrite update_loop_app. cbn zeta.
  rewrite update_loop_one. cbn zeta. cbn [fst snd].
  destruct (update_loop_frame f force now l1 s) as (_ & _ & Hn).
  split; [|reflexivity].
  apply list_lookup_middle. symmetry. exact Hn.
Qed.

(** C2 (as amended): every product is handled by its own run of the loop
    body, whatever happened to the products before it, and that run changes
    title, current_price and last_checked together or not at all.  A fetch
    that yields a non-zero price and a non-empty title overwrites all three;
    one that yields no price or no title, and also one that yields the price
    0 or the empty title, leaves the product as it was, and so does skipping
    the product.  The loop requests a page for every product that is not
    skipped, failures included, and keeps the length of the store. *)
Theorem update_prices_atomic (f : string -> option float) (force : bool)
    (now : float) (l1 l2 : list Product) (p : Product) (s : State) :
  products s = l1 ++ p :: l2 ->
  let attempt := get_product_price f (url p) (update_loop f force now l1 s).2 in
  let s' := (update_prices f force now s).2 in
  length (products s') = length (products s) /\
  fetched s' = fetched s ++ (url <$> attempted force now (products s)) /\
  (recently_checked force now p = true ->
   products s' !! length l1 = Some p) /\
  (recently_checked force now p = false ->
   (fetch_succeeded attempt.1.1 attempt.1.2 = true ->
    products s' !! length l1 = Some (overwritten now attempt.1.1 attempt.1.2 p)) /\
   (fetch_succeeded attempt.1.1 attempt.1.2 = false ->
    products s' !! length l1 = Some p) /\
   (attempt.1.1 = None \/ attempt.1.2 = None ->
    products s' !! length l1 = Some p)) /\
  (products s' !! length l1 = Some p \/
   exists price ti,
     float_truthy price = true /\ str_truthy ti = true /\
     products s' !! length l1 = Some (overwritten now (Some price) (Some ti) p)).
Proof.
  intros Hs attempt s'. subst s'.
  destruct (update_prices_products f force now s) as (Hp & Hf & _).
  destruct (update_loop_frame f force now (products s) s) as (_ & Hl & Hn).
  destruct (update_prices_at f force now l1 l2 p s Hs) as [Hat _].
  split; [rewrite Hp; exact Hn|]. split; [rewrite Hf; exact Hl|].
  destruct (recently_checked force now p) eqn:Hrc.
  - rewrite update_product_skipped in Hat by exact Hrc.
    split; [intros _; exact Hat|]. split; [discriminate|]. left. exact Hat.
  - rewrite update_product_attempted in Hat by exact Hrc. cbn zeta in Hat.
    fold attempt in Hat. split; [discriminate|].
    destruct (fetch_succeeded attempt.1.1 attempt.1.2) eqn:Hok.
    + split.
      * intros _. split; [intros _; exact Hat|]. split; [discriminate|].
        intros Habs. rewrite (fetch_succeeded_absent _ _ Habs) in Hok. discriminate.
      * right. unfold fetch_succeeded in Hok.
        destruct attempt.1.1 as [price|]; [|discriminate].
        destruct attempt.1.2 as [ti|]; [|rewrite andb_false_r in Hok; discriminate].
        apply andb_prop in Hok. destruct Hok as [H1 H2].
        exists price, ti. auto.
    + split; [|left; exact Hat].
      intros _. split; [discriminate|]. split; intros _; exact Hat.
Qed.

Lemma update_prices_atomic_witness :
  products (update_prices decimal_float true 1700003600
              (tracker None [gadget; widget] (serve untitled_page) smtp_accepts)).2
    !! 1%nat = Some widget.
Proof.
  refine (proj2 (proj2 (proj1 (proj2 (proj2 (proj2
    (update_prices_atomic decimal_float true 1700003600 [gadget] [] widget
       (tracker None [gadget; widget] (serve untitled_page) smtp_accepts) _))))
    _)) _).
  - reflexivity.
  - reflexivity.
  - right. vm_compute. reflexivity.
Defined.

(** C2 (as stated) fails: the page of [blank_title_page] has a price element
    and a title element, so the fetch yields the price 1299.0 and the title
    [""], both present; [update_prices], even forced, overwrites none of the
    three fields and reports no update.  The same happens with the price
    0.0 of [cheap_page]. *)
Lemma update_prices_atomic_counterexample :
  (get_product_price decimal_float (url widget) blank_title_store).1
    = (Some 1299%float, Some "") /\
  update_prices decimal_float true 1700003600 blank_title_store
    = ([], (update_prices decimal_float true 1700003600 blank_title_store).2) /\
  products (update_prices decimal_float true 1700003600 blank_title_store).2
    = [widget] /\
  title widget <> Some "" /\
  current_price widget <> Some 1299%float /\
  last_checked widget <> Some 1700003600%float /\
  (get_product_price decimal_float (url widget) cheap_store).1
    = (Some 0%float, Some "E-book") /\
  products (update_prices decimal_float true 1700003600 cheap_store).2
    = [widget].
Proof.
  split; [vm_compute; reflexivity|].
  split; [vm_compute; reflexivity|].
  split; [vm_compute; reflexivity|].
  split; [discriminate|].
  split; [apply some_float_neq; vm_compute; reflexivity|].
  split; [apply some_float_neq; vm_compute; reflexivity|].
  split; vm_compute; reflexivity.
Qed.

Lemma add_product_failed (f : string -> option float) (now : float) (u : string)
    (t : float) (s : State) :
  fetch_succeeded (get_product_price f u s).1.1 (get_product_price f u s).1.2 = false ->
  add_product f now u t s = (false, (get_product_price f u s).2).
Proof.
  unfold add_product, fetch_succeeded.
  destruct (get_product_price f u s) as [[price ti] s1]. cbn [fst snd].
  intros ->. reflexivity.
Qed.

(** C10: a fetch that yields the price 0 (or -0.0), or the empty title,
    fails the truthiness test [price and title] although both values were
    obtained.  [update_prices] then leaves the product as it was and adds
    nothing to the updated list for it, and [add_product] returns [False]
    without touching the store. *)
Theorem falsy_fetch_is_failure (f : string -> option float) (force : bool)
    (now : float) (l1 l2 : list Product) (p : Product) (s : State)
    (price : float) (ti : string) :
  products s = l1 ++ p :: l2 ->
  recently_checked force now p = false ->
  (get_product_price f (url p) (update_loop f force now l1 s).2).1
    = (Some price, Some ti) ->
  PrimFloat.eqb price 0 = true \/ ti = "" ->
  products (update_prices f force now s).2 !! length l1 = Some p /\
  (update_prices f force now s).1 =
    (update_loop f force now l1 s).1.2 ++
    (update_loop f force now l2
       (get_product_price f (url p) (update_loop f force now l1 s).2).2).1.2 /\
  (forall (u : string) (t : float) (s0 : State),
     (get_product_price f u s0).1 = (Some price, Some ti) ->
     add_product f now u t s0 = (false, (get_product_price f u s0).2) /\
     products (add_product f now u t s0).2 = products s0 /\
     disk (add_product f now u t s0).2 = disk s0).
Proof.
  intros Hs Hrc Hget Hfalsy.
  pose proof (fetch_succeeded_falsy price ti Hfalsy) as Hko.
  destruct (update_prices_at f force now l1 l2 p s Hs) as [Hat Hup].
  rewrite update_product_attempted in Hat, Hup by exact Hrc. cbn zeta in Hat, Hup.
  rewrite Hget in Hat, Hup. cbn [fst snd] in Hat, Hup. rewrite Hko in Hat, Hup.
  cbn [fst snd app] in Hat, Hup.
  split; [exact Hat|]. split; [exact Hup|].
  intros u t s0 Hget0.
  assert (Hadd : add_product f now u t s0 = (false, (get_product_price f u s0).2)).
  { apply add_product_failed. rewrite Hget0. exact Hko. }
  rewrite Hadd. cbn [fst snd].
  destruct (get_product_price_frame f u s0) as [(_&_&_&Hp&Hd&_) _].
  auto.
Qed.

Lemma falsy_fetch_is_failure_witness :
  products (update_prices decimal_float true 1700003600 cheap_store).2 !! 0%nat
    = Some widget /\
  (update_prices decimal_float true 1700003600 cheap_store).1 = [] /\
  (add_product decimal_float 1700003600 "u9" 5 cheap_store).1 = false.
Proof.
  pose proof (falsy_fetch_is_failure decimal_float true 1700003600 [] [] widget
                cheap_store 0%float "E-book" eq_refl eq_refl eq_refl
                (or_introl eq_refl)) as (H1 & H2 & H3).
  split; [exact H1|]. split; [exact H2|].
  rewrite (proj1 (H3 "u9" 5%float cheap_store eq_refl)). reflexivity.
Defined.

(** ** Two refreshes in a row *)

Lemma with_products_same (s : State) : with_products (products s) s = s.
Proof. destruct s. reflexivity. Qed.

Lemma update_loop_all_skipped (f : string -> option float) (force : bool)
    (now : float) (ps : list Product) (s : State) :
  Forall (fun p => recently_checked force now p = true) ps ->
  update_loop f force now ps s = ((ps, []), s).
Proof.
  induction 1 as [|p ps Hp _ IH]; [reflexivity|].
  cbn [update_loop]. rewrite update_product_skipped by exact Hp.
  rewrite IH. reflexivity.
Qed.

Lemma update_loop_updated (f : string -> option float) (force : bool)
    (now : float) (ps : list Product) (s : State) :
  Forall (fun p => last_checked p = Some now) (update_loop f force now ps s).1.2.
Proof.
  revert s. induction ps as [|p ps IH]; intros s; [constructor|].
  cbn [update_loop].
  destruct (recently_checked force now p) eqn:E.
  - rewrite update_product_skipped by exact E.
    specialize (IH s). destruct (update_loop f force now ps s) as [[a u] s2].
    exact IH.
  - rewrite update_product_attempted by exact E. cbn zeta.
    destruct (get_product_price f (url p) s) as [[price ti] s1]. cbn [fst snd].
    specialize (IH s1).
    destruct (fetch_succeeded price ti);
      destruct (update_loop f force now ps s1) as [[a u] s2]; cbn [fst snd] in *.
    + constructor; [reflexivity | exact IH].
    + exact IH.
Qed.

Lemma recently_checked_within_hour (now : float) (p : Product) :
  recently_checked false now p = true <-> checked_within_hour now p.
Proof.
  unfold recently_checked, checked_within_hour. cbn [negb andb]. split.
  - destruct (last_checked p) as [lc|]; [|discriminate].
    intros H. apply andb_prop in H. destruct H as [H1 H2]. exists lc. auto.
  - intros (lc & -> & H1 & H2). rewrite H1, H2. reflexivity.
Qed.

Lemma attempted_unforced (now : float) (ps : list Product) (p : Product) :
  p ∈ attempted false now ps <-> p ∈ ps /\ ~ checked_within_hour now p.
Proof.
  unfold attempted.
  rewrite !list_elem_of_In, filter_In, negb_true_iff, <- recently_checked_within_hour.
  destruct (recently_checked false now p); split; intros [H1 H2]; split;
    try assumption; try discriminate; congruence.
Qed.

(** C4 (as amended): two calls of [update_prices] with [force=False], the
    second less than 3600 seconds after the first (as the code measures
    it, [now2 - now1 < 3600], with a non-zero time stamp [now1]).  Every
    product updated by the first call is skipped by the second.  The second
    call requests exactly the products whose last_checked after the first
    call is null, zero or not less than 3600 seconds before the second
    call; so a product whose first fetch failed and that has no
    last_checked is fetched again.  The second call requests
    no page exactly when every product has a non-zero last_checked less
    than 3600 seconds old; it then returns an empty updated list and
    leaves the whole state as the first call left it, which is the case
    when every product was updated by the first call or is still within
    its hour. *)
Theorem second_refresh_is_idle (f : string -> option float) (now1 now2 : float)
    (s : State) :
  float_truthy now1 = true ->
  PrimFloat.ltb (PrimFloat.sub now2 now1) 3600 = true ->
  Forall (checked_within_hour now2) (update_prices f false now1 s).1 /\
  (exists requested,
     fetched (update_prices f false now2 (update_prices f false now1 s).2).2
       = fetched (update_prices f false now1 s).2 ++ (url <$> requested) /\
     forall p, p ∈ requested <->
       p ∈ products (update_prices f false now1 s).2 /\
       ~ checked_within_hour now2 p) /\
  (fetched (update_prices f false now2 (update_prices f false now1 s).2).2
     = fetched (update_prices f false now1 s).2 <->
   Forall (checked_within_hour now2) (products (update_prices f false now1 s).2)) /\
  (Forall (fun p => p ∈ (update_prices f false now1 s).1 \/
                    checked_within_hour now2 p)
          (products (update_prices f false now1 s).2) ->
   update_prices f false now2 (update_prices f false now1 s).2
     = ([], (update_prices f false now1 s).2) /\
   fetched (update_prices f false now2 (update_prices f false now1 s).2).2
     = fetched (update_prices f false now1 s).2).
Proof.
  intros Hnz Hlt.
  set (s1 := (update_prices f false now1 s).2).
  assert (Hupd : Forall (checked_within_hour now2) (update_prices f false now1 s).1).
  { destruct (update_prices_products f false now1 s) as (_ & _ & _ & _ & Hu).
    rewrite Hu.
    eapply Forall_impl; [apply update_loop_updated|].
    intros p Hp. exists now1. auto. }
  assert (Hreq : fetched (update_prices f false now2 s1).2
                 = fetched s1 ++ (url <$> attempted false now2 (products s1))).
  { destruct (update_prices_products f false now2 s1) as (_ & Hf & _).
    destruct (update_loop_frame f false now2 (products s1) s1) as (_ & Hl & _).
    rewrite Hf. exact Hl. }
  assert (Hidle : Forall (checked_within_hour now2) (products s1) ->
                  update_prices f false now2 s1 = ([], s1)).
  { intros Hall.
    assert (Hskip : Forall (fun p => recently_checked false now2 p = true) (products s1)).
    { eapply Forall_impl; [exact Hall|]. intros p. apply recently_checked_within_hour. }
    unfold update_prices at 1.
    rewrite (update_loop_all_skipped f false now2 _ _ Hskip).
    cbn [nonempty]. rewrite with_products_same. reflexivity. }
  split; [exact Hupd|]. split; [|split].
  - exists (attempted false now2 (products s1)). split; [exact Hreq|].
    intros p. apply attempted_unforced.
  - split.
    + intros Hsame. rewrite Hreq in Hsame.
      rewrite <- (app_nil_r (fetched s1)) in Hsame at 2.
      apply app_inv_head in Hsame. apply fmap_nil_inv in Hsame.
      apply Forall_forall. intros p Hp.
      destruct (recently_checked false now2 p) eqn:E;
        [apply recently_checked_within_hour; exact E|].
      assert (Hin : p ∈ attempted false now2 (products s1)).
      { unfold attempted. rewrite list_elem_of_In, filter_In, <- list_elem_of_In.
        rewrite E. auto. }
      rewrite Hsame in Hin. inversion Hin.
    + intros Hall. rewrite (Hidle Hall). reflexivity.
  - intros Hall.
    assert (Hall' : Forall (checked_within_hour now2) (products s1)).
    { rewrite Forall_forall in Hall, Hupd |- *. intros p Hp.
      destruct (Hall p Hp) as [Hin | Hw]; [apply Hupd; exact Hin | exact Hw]. }
    rewrite (Hidle Hall'). split; reflexivity.
Qed.

Lemma second_refresh_is_idle_witness :
  (update_prices decimal_float false 1700000200
     (update_prices decimal_float false 1700000100 working_store).2).1 = [] /\
  fetched (update_prices decimal_float false 1700000200
     (update_prices decimal_float false 1700000100 working_store).2).2 = ["u3"].
Proof.
  assert (H : Forall
    (fun p => p ∈ (update_prices decimal_float false 1700000100 working_store).1 \/
              checked_within_hour 1700000200 p)
    (products (update_prices decimal_float false 1700000100 working_store).2)).
  { constructor; [right; exists 1700000000%float; repeat split|].
    constructor; [left; apply list_elem_of_here|]. constructor. }
  destruct (proj2 (proj2 (proj2
    (second_refresh_is_idle decimal_float 1700000100 1700000200
       working_store eq_refl eq_refl))) H) as [H1 H2].
  split.
  - rewrite H1. reflexivity.
  - rewrite H2. reflexivity.
Defined.

(** C4 (as stated) fails: [newcomer] has never been checked and its first
    fetch meets a network error, so the first call updates nothing; the
    second call, 100 seconds later, requests the page again and this time
    updates the product. *)
Lemma second_refresh_is_idle_counterexample :
  PrimFloat.ltb (PrimFloat.sub 1700000100 1700000000) 3600 = true /\
  update_prices decimal_float false 1700000000 flaky_store
    = ([], (update_prices decimal_float false 1700000000 flaky_store).2) /\
  fetched (update_prices decimal_float false 1700000000 flaky_store).2 = ["u3"] /\
  fetched (update_prices decimal_float false 1700000100
             (update_prices decimal_float false 1700000000 flaky_store).2).2
    = ["u3"; "u3"] /\
  (update_prices decimal_float false 1700000100
     (update_prices decimal_float false 1700000000 flaky_store).2).1
    = [mkProduct "u3" 10 (Some "Widget") (Some 45%float) (Some 1700000100%float)].
Proof. repeat split; vm_compute; reflexivity. Qed.

(** ** Parsing *)

(** C5 (as amended): on a page fetched with status 200, the price decides.
    When the price element is missing, or its text does not convert to a
    number, [get_product_price] returns both price and title absent, even
    if the title element was found; when the price converts, it returns the
    price together with the stripped title, or with an absent title if the
    title element is missing.  So a missing title does not erase the price,
    while a missing price erases the title. *)
Theorem get_product_price_result (f : string -> option float) (u : string)
    (s : State) (pg : page) :
  net s (length (fetched s)) u = Ok (mkResponse 200 pg) ->
  (price_element pg = None ->
   (get_product_price f u s).1 = (None, None)) /\
  (forall txt, price_element pg = Some txt ->
     f (remove_char "." (remove_char "," (strip txt))) = None ->
     (get_product_price f u s).1 = (None, None)) /\
  (forall txt price, price_element pg = Some txt ->
     f (remove_char "." (remove_char "," (strip txt))) = Some price ->
     (get_product_price f u s).1 = (Some price, strip <$> title_element pg)).
Proof.
  intros Hnet. unfold get_product_price, session_get.
  change (net (print_colored MsgFetching s)) with (net s).
  change (fetched (print_colored MsgFetching s)) with (fetched s).
  rewrite Hnet. cbn [status_code content Z.eqb Pos.eqb negb]. unfold parse.
  split; [|split].
  - intros ->. destruct (title_element pg); reflexivity.
  - intros txt -> Hf. destruct (title_element pg); rewrite Hf; reflexivity.
  - intros txt price -> Hf. destruct (title_element pg); rewrite Hf; reflexivity.
Qed.

Lemma get_product_price_result_witness :
  (get_product_price decimal_float "u1" untitled_store).1 = (Some 1299%float, None).
Proof.
  exact (proj2 (proj2 (get_product_price_result decimal_float "u1" untitled_store
                         untitled_page eq_refl)) "1,299." 1299%float eq_refl eq_refl).
Defined.

(** C5 (as stated) fails: [unpriced_page] has the title element and no price
    element, and [garbled_page] has the title element and a price text that
    is not a number; in both cases the title found is not returned. *)
Lemma get_product_price_result_counterexample :
  title_element unpriced_page = Some "Widget" /\
  price_element unpriced_page = None /\
  (get_product_price decimal_float "u1" unpriced_store).1 = (None, None) /\
  (get_product_price decimal_float "u1" unpriced_store).1 <> (None, Some "Widget") /\
  title_element garbled_page = Some "Widget" /\
  price_element garbled_page = Some "N/A" /\
  (get_product_price decimal_float "u1" garbled_store).1 = (None, None) /\
  (get_product_price decimal_float "u1" garbled_store).1 <> (None, Some "Widget").
Proof.
  repeat split; try reflexivity; vm_compute; discriminate.
Qed.

(** ** Checking and notifying *)

(** C8: without a receiver address ([None] or the empty string)
    [check_prices] prints the configuration error and returns; it makes no
    request, changes no product, writes no file and sends no message. *)
Theorem check_prices_requires_receiver (f : string -> option float)
    (force : bool) (now : float) (s : State) :
  truthy str_truthy (email_receiver s) = false ->
  check_prices f force now s = (Ok (), print_colored MsgReceiverNotSet s) /\
  frame s (check_prices f force now s).2 /\
  products (check_prices f force now s).2 = products s /\
  disk (check_prices f force now s).2 = disk s /\
  fetched (check_prices f force now s).2 = fetched s /\
  outbox (check_prices f force now s).2 = outbox s /\
  console (check_prices f force now s).2 = console s ++ [MsgReceiverNotSet].
Proof.
  intros H. unfold check_prices. rewrite H. cbn.
  repeat split.
Qed.

Lemma check_prices_requires_receiver_witness :
  fetched (check_prices decimal_float true 1700003600 working_store).2 = [] /\
  products (check_prices decimal_float true 1700003600 working_store).2
    = [widget; newcomer].
Proof.
  destruct (check_prices_requires_receiver decimal_float true 1700003600
              working_store eq_refl) as (_ & _ & Hp & _ & Hf & _).
  split; [exact Hf | exact Hp].
Defined.

Lemma send_email_body_frame (ps : list Product) (s : State) :
  products (send_email_body ps s).2 = products s /\
  disk (send_email_body ps s).2 = disk s /\
  fetched (send_email_body ps s).2 = fetched s /\
  (forall e, (send_email_body ps s).1 = Raise e -> (send_email_body ps s).2 = s).
Proof.
  unfold send_email_body.
  destruct (try_all compose_item ps) as [items|e]; [|cbn; auto].
  destruct (smtp s _ _ _) as [[]|e]; cbn; repeat split; auto. discriminate.
Qed.

Lemma send_email_total (ps : list Product) (s : State) :
  (send_email ps s).1 = Ok () /\
  products (send_email ps s).2 = products s /\
  disk (send_email ps s).2 = disk s /\
  fetched (send_email ps s).2 = fetched s.
Proof.
  unfold send_email. destruct (negb (nonempty ps)); [cbn; auto|].
  destruct (send_email_body_frame ps s) as (Hp & Hd & Hf & _).
  destruct (send_email_body ps s) as [[[]|e] s1]; cbn in *; auto.
Qed.

Lemma collect_price_drops_frame (ps : list Product) (s : State) :
  frame s (collect_price_drops ps s).2 /\
  fetched (collect_price_drops ps s).2 = fetched s.
Proof.
  revert s. induction ps as [|p ps IH]; intros s; [cbn; split; [apply frame_refl|reflexivity]|].
  cbn [collect_price_drops]. destruct (below_target p) as [b|e]; [|cbn; split; [apply frame_refl|reflexivity]].
  match goal with |- context [collect_price_drops ps ?s0] =>
    destruct (IH s0) as [Hf Hl]; destruct (collect_price_drops ps s0) as [[d|e] s2] end;
    cbn [fst snd] in *.
  - split; [eapply frame_trans; [|exact Hf]; destruct b; repeat split|].
    rewrite Hl. destruct b; reflexivity.
  - split; [eapply frame_trans; [|exact Hf]; destruct b; repeat split|].
    rewrite Hl. destruct b; reflexivity.
Qed.

Lemma compute_price_drops_frame (f : string -> option float) (force : bool)
    (now : float) (s : State) :
  frame (update_prices f force now s).2 (compute_price_drops f force now s).2 /\
  fetched (compute_price_drops f force now s).2 = fetched (update_prices f force now s).2.
Proof.
  unfold compute_price_drops.
  destruct (update_prices f force now s) as [upd s1]. cbn [snd].
  match goal with |- context [collect_price_drops ?ps ?s0] =>
    destruct (collect_price_drops_frame ps s0) as [Hf Hl] end.
  split.
  - eapply frame_trans; [|exact Hf]. destruct (nonempty upd); repeat split.
  - rewrite Hl. destruct (nonempty upd); reflexivity.
Qed.

Lemma send_email_failed (ps : list Product) (s : State) (e : exn) :
  ps <> [] ->
  (send_email_body ps s).1 = Raise e ->
  send_email ps s = (Ok (), print_colored (MsgEmailFailed e) s).
Proof.
  intros Hne Hbody. unfold send_email.
  destruct ps as [|p ps]; [congruence|]. cbn [nonempty negb].
  destruct (send_email_body_frame (p :: ps) s) as (_ & _ & _ & Hs).
  specialize (Hs e Hbody).
  destruct (send_email_body (p :: ps) s) as [r s1]. cbn [fst snd] in *.
  subst r s1. reflexivity.
Qed.

(** Once [price_drops] is computed, [check_prices] returns normally, and in
    every case it leaves the products and the products file as
    [update_prices] left them. *)
Lemma check_prices_store (f : string -> option float) (force : bool)
    (now : float) (s : State) :
  truthy str_truthy (email_receiver s) = true ->
  (forall drops, (compute_price_drops f force now s).1 = Ok drops ->
     (check_prices f force now s).1 = Ok ()) /\
  products (check_prices f force now s).2 = products (update_prices f force now s).2 /\
  disk (check_prices f force now s).2 = disk (update_prices f force now s).2.
Proof.
  intros Hr.
  destruct (compute_price_drops_frame f force now s) as [(_&_&_&Hp&Hd&_) _].
  unfold check_prices. rewrite Hr. cbn [negb].
  destruct (compute_price_drops f force now s) as [[drops|e] s1]; cbn [fst snd] in *.
  - destruct (send_email_total drops s1) as (H1 & H2 & H3 & _).
    destruct (nonempty drops); cbn [fst snd].
    + split; [intros _ _; exact H1|]. split; congruence.
    + split; [reflexivity|]. split; assumption.
  - split; [discriminate|]. split; assumption.
Qed.

(** C7: [send_email] returns normally whatever happens while the message is
    composed (a product without price raises TypeError) or submitted (the
    mail server may raise anything on connecting, logging in or sending):
    the exception is caught and reported on the console.  It never changes
    the products or the products file, so after [check_prices] both are as
    [update_prices] left them, saved before the notification was tried. *)
Theorem notification_failure_is_contained (f : string -> option float)
    (force : bool) (now : float) (s : State) :
  truthy str_truthy (email_receiver s) = true ->
  (forall ps s0,
     (send_email ps s0).1 = Ok () /\
     products (send_email ps s0).2 = products s0 /\
     disk (send_email ps s0).2 = disk s0) /\
  (forall ps s0 e, ps <> [] ->
     (send_email_body ps s0).1 = Raise e ->
     send_email ps s0 = (Ok (), print_colored (MsgEmailFailed e) s0)) /\
  (forall drops, (compute_price_drops f force now s).1 = Ok drops ->
     (check_prices f force now s).1 = Ok ()) /\
  products (check_prices f force now s).2 = products (update_prices f force now s).2 /\
  disk (check_prices f force now s).2 = disk (update_prices f force now s).2.
Proof.
  intros Hr. split; [|split].
  - intros ps s0. destruct (send_email_total ps s0) as (H1 & H2 & H3 & _). auto.
  - intros ps s0 e. apply send_email_failed.
  - apply check_prices_store. exact Hr.
Qed.

Lemma notification_failure_is_contained_witness :
  (check_prices decimal_float true 1700003600 unheard_store).1 = Ok () /\
  products (check_prices decimal_float true 1700003600 unheard_store).2
    = [widget; gadget] /\
  outbox (check_prices decimal_float true 1700003600 unheard_store).2 = [] /\
  last (console (check_prices decimal_float true 1700003600 unheard_store).2)
    = Some (MsgEmailFailed SMTPException).
Proof.
  destruct (notification_failure_is_contained decimal_float true 1700003600
              unheard_store eq_refl) as (_ & _ & Hok & Hp & _).
  split; [exact (Hok [gadget] eq_refl)|].
  split; [rewrite Hp; reflexivity|].
  split; reflexivity.
Defined.

(** ** Price drops *)

Lemma SFcompare_antisym (x y : spec_float) :
  SFcompare y x = option_map CompOpp (SFcompare x y).
Proof.
  destruct x as [s|s| |s m e], y as [s'|s'| |s' m' e']; cbn; try reflexivity;
    try (destruct s; reflexivity); try (destruct s'; reflexivity);
    try (destruct s, s'; reflexivity).
  destruct s, s'; cbn; try reflexivity;
    rewrite (Z.compare_antisym e e'); destruct (Z.compare e e'); cbn; try reflexivity;
    change (Pos.compare_cont Eq m' m) with (Pos.compare m' m);
    change (Pos.compare_cont Eq m m') with (Pos.compare m m');
    rewrite (Pos.compare_antisym m m'); destruct (Pos.compare m m'); reflexivity.
Qed.

(** [c <= t] and [c > t] never hold together. *)
Lemma float_leb_not_gt (c t : float) :
  PrimFloat.leb c t = true -> PrimFloat.ltb t c = false.
Proof.
  rewrite FloatAxioms.leb_spec, FloatAxioms.ltb_spec. unfold SFleb, SFltb.
  rewrite (SFcompare_antisym (Prim2SF c) (Prim2SF t)).
  destruct (SFcompare (Prim2SF c) (Prim2SF t)) as [[]|]; cbn; congruence.
Qed.

Lemma price_dropped_iff (p : Product) :
  price_dropped p = true <-> at_or_below_target p.
Proof.
  unfold price_dropped, at_or_below_target. split.
  - destruct (current_price p) as [c|]; [|discriminate]. intros H. exists c. auto.
  - intros (c & -> & H). exact H.
Qed.

Lemma collect_price_drops_priced (ps : list Product) (s : State) :
  Forall (fun p => current_price p <> None) ps ->
  (collect_price_drops ps s).1 = Ok (List.filter price_dropped ps).
Proof.
  intros H. revert s. induction H as [|p ps Hp _ IH]; intros s; [reflexivity|].
  cbn [collect_price_drops List.filter]. unfold below_target, price_dropped.
  destruct (current_price p) as [c|]; [|congruence].
  match goal with |- context [collect_price_drops ps ?s0] =>
    specialize (IH s0); destruct (collect_price_drops ps s0) as [[d|e] s2] end;
    cbn [fst snd] in *; [|discriminate].
  injection IH as ->. reflexivity.
Qed.

Lemma collect_price_drops_unpriced (ps : list Product) (s : State) :
  Exists (fun p => current_price p = None) ps ->
  (collect_price_drops ps s).1 = Raise TypeError.
Proof.
  intros H. revert s. induction ps as [|p ps IH]; intros s; [inversion H|].
  cbn [collect_price_drops]. unfold below_target.
  destruct (current_price p) as [c|] eqn:E; [|reflexivity].
  assert (H' : Exists (fun p => current_price p = None) ps).
  { inversion H as [? ? H0|]; [congruence | assumption]. }
  match goal with |- context [collect_price_drops ps ?s0] =>
    specialize (IH H' s0); destruct (collect_price_drops ps s0) as [[d|e] s2] end;
    cbn [fst snd] in *; [discriminate | exact IH].
Qed.

Lemma compute_price_drops_result (f : string -> option float) (force : bool)
    (now : float) (s : State) :
  (compute_price_drops f force now s).1 =
    (collect_price_drops (products (update_prices f force now s).2)
       (let r := update_prices f force now s in
        if nonempty r.1 then print_colored (MsgUpdated (length r.1)) r.2 else r.2)).1.
Proof.
  unfold compute_price_drops.
  destruct (update_prices f force now s) as [upd s1]. cbn [fst snd].
  destruct (nonempty upd); reflexivity.
Qed.

(** C1 (as amended): provided every product of the store has a price when
    the comparison loop runs, [price_drops], as [check_prices] computes it
    after the call of [update_prices], holds exactly the tracked products
    whose current_price is at most their target_price, taken over the whole
    store in store order, whether or not the call has just updated them:
    each such product is in it, and no product whose current_price exceeds
    its target_price is. *)
Theorem price_drops_exact (f : string -> option float) (force : bool)
    (now : float) (s : State) :
  Forall (fun p => current_price p <> None)
         (products (update_prices f force now s).2) ->
  exists price_drops,
    (compute_price_drops f force now s).1 = Ok price_drops /\
    price_drops = List.filter price_dropped (products (update_prices f force now s).2) /\
    (forall p, p ∈ price_drops <->
       p ∈ products (update_prices f force now s).2 /\ at_or_below_target p) /\
    (forall p, above_target p -> p ∉ price_drops) /\
    (truthy str_truthy (email_receiver s) = true ->
     check_prices f force now s =
       if nonempty price_drops
       then send_email price_drops (compute_price_drops f force now s).2
       else (Ok (), (compute_price_drops f force now s).2)).
Proof.
  intros Hall. eexists. split; [|split; [reflexivity|]].
  - rewrite compute_price_drops_result. apply collect_price_drops_priced. exact Hall.
  - assert (Hin : forall p,
      p ∈ List.filter price_dropped (products (update_prices f force now s).2) <->
      p ∈ products (update_prices f force now s).2 /\ at_or_below_target p).
    { intros p. rewrite !list_elem_of_In, filter_In, price_dropped_iff. reflexivity. }
    split; [exact Hin|]. split.
    + intros p (c & Hc & Hgt) Hp. apply Hin in Hp. destruct Hp as [_ (c' & Hc' & Hle)].
      rewrite Hc in Hc'. injection Hc' as <-.
      rewrite (float_leb_not_gt _ _ Hle) in Hgt. discriminate.
    + intros Hr. unfold check_prices. rewrite Hr. cbn [negb].
      pose proof (collect_price_drops_priced _
        (let r := update_prices f force now s in
         if nonempty r.1 then print_colored (MsgUpdated (length r.1)) r.2 else r.2)
        Hall) as Hc.
      rewrite <- compute_price_drops_result in Hc.
      destruct (compute_price_drops f force now s) as [r s1]. cbn [fst snd] in *.
      subst r. reflexivity.
Qed.

Lemma price_drops_exact_witness :
  (compute_price_drops decimal_float true 1700003600 priced_store).1
    = Ok [mkProduct "u1" 50 (Some "Widget") (Some 45%float) (Some 1700003600%float)] /\
  (compute_price_drops decimal_float false 1700000100 priced_store).1
    = Ok [gadget].
Proof.
  assert (H : Forall (fun p => current_price p <> None)
                (products (update_prices decimal_float true 1700003600 priced_store).2)).
  { constructor; [discriminate|]. constructor; [discriminate|]. constructor. }
  assert (H' : Forall (fun p => current_price p <> None)
                 (products (update_prices decimal_float false 1700000100 priced_store).2)).
  { constructor; [discriminate|]. constructor; [discriminate|]. constructor. }
  destruct (price_drops_exact decimal_float true 1700003600 priced_store H)
    as (d & H1 & H2 & _).
  destruct (price_drops_exact decimal_float false 1700000100 priced_store H')
    as (d' & H1' & H2' & _).
  split.
  - rewrite H1, H2. reflexivity.
  - rewrite H1', H2'. reflexivity.
Defined.

(** C1 (as stated) fails: in [newcomer_first_store] the product [gadget] is
    tracked and its price, 15, is at most its target, 20, but [newcomer]
    has no price and its refresh fails; the comparison raises TypeError, so
    no [price_drops] is computed that would hold [gadget], and nothing is
    sent. *)
Lemma price_drops_exact_counterexample :
  gadget ∈ products (update_prices decimal_float false 1700000100
                       newcomer_first_store).2 /\
  at_or_below_target gadget /\
  (compute_price_drops decimal_float false 1700000100 newcomer_first_store).1
    = Raise TypeError /\
  (check_prices decimal_float false 1700000100 newcomer_first_store).1
    = Raise TypeError /\
  outbox (check_prices decimal_float false 1700000100 newcomer_first_store).2 = [].
Proof.
  split; [apply list_elem_of_further, list_elem_of_here|].
  split; [exists 15%float; split; reflexivity|].
  repeat split; vm_compute; reflexivity.
Qed.

(** C9: [check_prices] completes only if every tracked product has a price
    when the comparison loop runs.  If, after [update_prices], some product
    still has a null current_price (it was loaded or added without one and
    its refresh failed), the comparison raises TypeError: the check is
    aborted, the product is not skipped, and no notification is sent, not
    even for the products that did drop.  If every product has a price,
    [check_prices] returns normally. *)
Theorem check_prices_null_price (f : string -> option float) (force : bool)
    (now : float) (s : State) :
  truthy str_truthy (email_receiver s) = true ->
  (Exists (fun p => current_price p = None)
          (products (update_prices f force now s).2) ->
   (check_prices f force now s).1 = Raise TypeError /\
   outbox (check_prices f force now s).2 = outbox s /\
   products (check_prices f force now s).2
     = products (update_prices f force now s).2) /\
  (Forall (fun p => current_price p <> None)
          (products (update_prices f force now s).2) ->
   (check_prices f force now s).1 = Ok ()).
Proof.
  intros Hr. split.
  - intros Hex.
    pose proof (collect_price_drops_unpriced _
      (let r := update_prices f force now s in
       if nonempty r.1 then print_colored (MsgUpdated (length r.1)) r.2 else r.2)
      Hex) as Hc.
    rewrite <- compute_price_drops_result in Hc.
    destruct (compute_price_drops_frame f force now s) as [(_&_&_&Hp&_&_&_&_&Ho) _].
    destruct (update_prices_products f force now s) as (_ & _ & Ho' & _).
    unfold check_prices. rewrite Hr. cbn [negb].
    destruct (compute_price_drops f force now s) as [r s1]. cbn [fst snd] in *.
    subst r. cbn [fst snd]. split; [reflexivity|]. split; congruence.
  - intros Hall.
    destruct (check_prices_store f force now s Hr) as (Hok & _).
    apply (Hok (List.filter price_dropped (products (update_prices f force now s).2))).
    rewrite compute_price_drops_result. apply collect_price_drops_priced. exact Hall.
Qed.

Lemma check_prices_null_price_witness :
  (check_prices decimal_float false 1700000100 unpriced_newcomer_store).1
    = Raise TypeError /\
  outbox (check_prices decimal_float false 1700000100 unpriced_newcomer_store).2 = [].
Proof.
  assert (H : Exists (fun p => current_price p = None)
    (products (update_prices decimal_float false 1700000100 unpriced_newcomer_store).2)).
  { apply Exists_cons_tl. apply Exists_cons_hd. reflexivity. }
  destruct (proj1 (check_prices_null_price decimal_float false 1700000100
                     unpriced_newcomer_store eq_refl) H) as (H1 & H2 & _).
  split; [exact H1 | exact H2].
Defined.

(** * Further properties *)

(** ** The products file *)

Lemma from_dict_complete (d : dict) :
  complete d -> exists p, from_dict d = Ok p /\ d = to_dict p.
Proof.
  destruct d as [[u|] [t|] [ti|] [cp|] [lc|]]; intros (H1 & H2 & H3 & H4 & H5);
    cbn in *; try congruence.
  exists (mkProduct u t ti cp lc). split; reflexivity.
Qed.

Lemma from_dict_incomplete (d : dict) :
  ~ complete d -> from_dict d = Raise KeyError.
Proof.
  intros H. destruct d as [[u|] [t|] [ti|] [cp|] [lc|]]; try reflexivity.
  exfalso. apply H. repeat split; discriminate.
Qed.

Lemma to_dict_complete (p : Product) : complete (to_dict p).
Proof. repeat split; discriminate. Qed.

Lemma complete_dec (d : dict) : complete d \/ ~ complete d.
Proof.
  destruct d as [[u|] [t|] [ti|] [cp|] [lc|]];
    try (left; repeat split; discriminate);
    right; intros (H1 & H2 & H3 & H4 & H5); cbn in *; congruence.
Qed.

(** X1: [from_dict] succeeds exactly on the objects that have all five
    keys, and returns the product whose five fields are the values found
    under them, so that [to_dict] gives the object back; on an object
    that lacks one of the keys it raises KeyError.  [to_dict] loses
    nothing: two products with the same dictionary are the same product. *)
Theorem from_dict_ok_iff (d : dict) (p : Product) :
  (from_dict d = Ok p <-> d = to_dict p) /\
  ((exists q, from_dict d = Ok q) <-> complete d) /\
  (from_dict d = Raise KeyError <-> ~ complete d) /\
  (forall q, to_dict q = to_dict p -> q = p).
Proof.
  split; [|split; [|split]].
  - split.
    + intros H. destruct (complete_dec d) as [Hc | Hc].
      * destruct (from_dict_complete d Hc) as (q & Hq & ->). congruence.
      * rewrite (from_dict_incomplete d Hc) in H. discriminate.
    + intros ->. apply from_dict_to_dict.
  - split.
    + intros [q Hq]. destruct (complete_dec d) as [Hc | Hc]; [exact Hc|].
      rewrite (from_dict_incomplete d Hc) in Hq. discriminate.
    + intros Hc. destruct (from_dict_complete d Hc) as (q & Hq & _). eauto.
  - split; [|apply from_dict_incomplete].
    intros H Hc. destruct (from_dict_complete d Hc) as (q & Hq & _). congruence.
  - intros q Hq.
    assert (H : from_dict (to_dict q) = Ok p).
    { rewrite Hq. apply from_dict_to_dict. }
    rewrite from_dict_to_dict in H. congruence.
Qed.

Lemma try_all_from_dict_complete (data : list dict) :
  Forall complete data -> exists ps, data = to_dict <$> ps.
Proof.
  induction 1 as [|d data Hd _ (ps & ->)]; [exists []; reflexivity|].
  destruct (from_dict_complete d Hd) as (p & _ & ->).
  exists (p :: ps). reflexivity.
Qed.

Lemma try_all_from_dict_incomplete (data : list dict) :
  Exists (fun d => ~ complete d) data -> try_all from_dict data = Raise KeyError.
Proof.
  induction data as [|d data IH]; intros H; [inversion H|].
  cbn [try_all]. destruct (complete_dec d) as [Hc | Hc].
  - destruct (from_dict_complete d Hc) as (p & Hp & _). rewrite Hp.
    cbn [mbind result_bind]. rewrite IH; [reflexivity|].
    inversion H; [contradiction | assumption].
  - rewrite (from_dict_incomplete d Hc). reflexivity.
Qed.

(** X2: [load_products] replaces the store by the products of the file, all
    of them or none.  When every object of the file has the five keys, the
    store becomes, whatever it held, one product per object in the order
    of the file, each with the values of its object, and nothing is
    printed.  When one object lacks a key, the store is emptied, the
    complete objects included, and the KeyError is printed.  A missing file
    leaves the store as it is, and a file that cannot be read empties it
    and prints the error. *)
Theorem load_products_all_or_nothing (s : State) :
  (forall ps, disk s = Stored (to_dict <$> ps) ->
     load_products s = with_products ps s) /\
  (forall data, disk s = Stored data -> Forall complete data ->
     exists ps, data = to_dict <$> ps /\
       products (load_products s) = ps /\ console (load_products s) = console s) /\
  (forall data, disk s = Stored data -> Exists (fun d => ~ complete d) data ->
     products (load_products s) = [] /\
     console (load_products s) = console s ++ [MsgErrorLoading KeyError]) /\
  (disk s = Missing -> load_products s = s) /\
  (forall e, disk s = Unreadable e ->
     products (load_products s) = [] /\
     console (load_products s) = console s ++ [MsgErrorLoading e]).
Proof.
  split; [apply load_products_stored|]. split; [|split; [|split]].
  - intros data Hd Hall. destruct (try_all_from_dict_complete data Hall) as (ps & ->).
    exists ps. split; [reflexivity|].
    rewrite (load_products_stored s ps Hd). split; reflexivity.
  - intros data Hd Hex. unfold load_products.
    rewrite Hd, (try_all_from_dict_incomplete data Hex). split; reflexivity.
  - intros Hd. unfold load_products. rewrite Hd. reflexivity.
  - intros e Hd. unfold load_products. rewrite Hd. split; reflexivity.
Qed.

Lemma load_products_all_or_nothing_witness :
  products (load_products half_written_store) = [] /\
  products (load_products
    (with_disk (Stored (to_dict <$> [widget; gadget])) half_written_store))
    = [widget; gadget].
Proof.
  split.
  - refine (proj1 (proj1 (proj2 (proj2 (load_products_all_or_nothing half_written_store)))
      [to_dict widget; untitled_gadget] eq_refl _)).
    apply Exists_cons_tl, Exists_cons_hd.
    intros (_ & _ & H & _). apply H. reflexivity.
  - rewrite (proj1 (load_products_all_or_nothing
      (with_disk (Stored (to_dict <$> [widget; gadget])) half_written_store))
      [widget; gadget] eq_refl).
    reflexivity.
Defined.

(** ** Starting again *)

Lemma init_products (a b : string) (r : option string) (w : State) :
  products (AmazonPriceTracker_init a b r w) =
    match disk w with
    | Stored data =>
        match try_all from_dict data with
        | Ok ps => ps
        | Raise _ => []
        end
    | _ => []
    end.
Proof.
  unfold AmazonPriceTracker_init, load_products. cbn [disk].
  destruct (disk w) as [|e|data]; [reflexivity..|].
  destruct (try_all from_dict data); reflexivity.
Qed.

Lemma synced_persisted (s : State) : synced s -> persisted s.
Proof.
  unfold synced, persisted. intros H.
  rewrite init_products, H, try_all_from_dict. reflexivity.
Qed.

Lemma save_products_synced (s : State) :
  disk_write_error s = None -> synced (save_products s).
Proof.
  intros H. unfold synced, save_products. rewrite H. reflexivity.
Qed.

(** X3: a tracker created on the file that [save_products] wrote holds the
    saved products in the saved order, whatever credentials and receiver it
    is given; created without a products file, or on one that cannot be
    read, it holds no product.  In each case it keeps the credentials and
    the receiver it was given. *)
Theorem restart_recovers_store (a b : string) (r : option string) (s : State) :
  (disk_write_error s = None ->
   products (AmazonPriceTracker_init a b r (save_products s)) = products s) /\
  (disk s = Missing ->
   products (AmazonPriceTracker_init a b r s) = [] /\
   console (AmazonPriceTracker_init a b r s) = console s) /\
  (forall e, disk s = Unreadable e ->
   products (AmazonPriceTracker_init a b r s) = [] /\
   console (AmazonPriceTracker_init a b r s) = console s ++ [MsgErrorLoading e]) /\
  email_sender (AmazonPriceTracker_init a b r s) = a /\
  email_password (AmazonPriceTracker_init a b r s) = b /\
  email_receiver (AmazonPriceTracker_init a b r s) = r.
Proof.
  split; [|split; [|split]].
  - intros Hw. rewrite init_products, (save_products_synced s Hw), try_all_from_dict.
    apply save_products_products.
  - intros Hd. unfold AmazonPriceTracker_init, load_products. cbn [disk].
    rewrite Hd. split; reflexivity.
  - intros e Hd. unfold AmazonPriceTracker_init, load_products. cbn [disk].
    rewrite Hd. split; reflexivity.
  - unfold AmazonPriceTracker_init, load_products. cbn [disk].
    destruct (disk s) as [|e|data]; [repeat split..|].
    destruct (try_all from_dict data); repeat split.
Qed.

Lemma restart_recovers_store_witness :
  products (AmazonPriceTracker_init "other@example.com" "secret" None
              (save_products working_store)) = [widget; newcomer].
Proof.
  exact (proj1 (restart_recovers_store "other@example.com" "secret" None working_store)
           eq_refl).
Defined.

(** ** Adding and removing *)

Lemma add_product_with_data_products (now : float) (u : string) (t : float)
    (ti : option string) (cp : option float) (s : State) :
  products (add_product_with_data now u t ti cp s).2
    = products s ++ [mkProduct u t ti cp (Some now)].
Proof. cbn. apply save_products_products. Qed.

(** X4: [add_product_with_data] always returns [True] and puts the new
    product, stamped with the time of the call, behind the others, which
    keep their places.  Removing the last index right after it gives back
    the products there were before, and when the file can be written the
    file holds them again. *)
Theorem add_then_remove_last (now : float) (u : string) (t : float)
    (ti : option string) (cp : option float) (s : State) :
  (add_product_with_data now u t ti cp s).1 = true /\
  products (add_product_with_data now u t ti cp s).2
    = products s ++ [mkProduct u t ti cp (Some now)] /\
  (forall i p, products s !! i = Some p ->
     products (add_product_with_data now u t ti cp s).2 !! i = Some p) /\
  (remove_product (Z.of_nat (length (products s)))
     (add_product_with_data now u t ti cp s).2).1 = true /\
  products (remove_product (Z.of_nat (length (products s)))
              (add_product_with_data now u t ti cp s).2).2 = products s /\
  (disk_write_error s = None ->
   disk (remove_product (Z.of_nat (length (products s)))
           (add_product_with_data now u t ti cp s).2).2
     = Stored (to_dict <$> products s)).
Proof.
  pose proof (add_product_with_data_products now u t ti cp s) as Hp.
  split; [reflexivity|]. split; [exact Hp|]. split.
  { intros i p Hi. rewrite Hp. apply lookup_app_l_Some. exact Hi. }
  unfold remove_product. rewrite Hp, length_app. cbn [length].
  assert (Hin : (0 <=? Z.of_nat (length (products s))) &&
                (Z.of_nat (length (products s)) <? Z.of_nat (length (products s) + 1)) = true).
  { apply andb_true_intro. split; [apply Z.leb_le | apply Z.ltb_lt]; lia. }
  rewrite Hin. cbn [fst snd]. rewrite Nat2Z.id.
  assert (Hdel : delete (length (products s))
                   (products s ++ [mkProduct u t ti cp (Some now)]) = products s).
  { rewrite delete_middle. apply app_nil_r. }
  rewrite Hdel. split; [reflexivity|]. split.
  - rewrite save_products_products. reflexivity.
  - intros Hw. unfold save_products at 1. cbn [disk_write_error with_products].
    assert (Hw' : disk_write_error (add_product_with_data now u t ti cp s).2 = None).
    { cbn. unfold save_products. cbn [disk_write_error with_products]. rewrite Hw. exact Hw. }
    rewrite Hw'. reflexivity.
Qed.

Lemma add_then_remove_last_witness :
  disk (remove_product 2
          (add_product_with_data 1700000000 "u9" 5 (Some "Gizmo") (Some 7%float)
             working_store).2).2
    = Stored (to_dict <$> [widget; newcomer]).
Proof.
  exact (proj2 (proj2 (proj2 (proj2 (proj2
    (add_then_remove_last 1700000000 "u9" 5 (Some "Gizmo") (Some 7%float)
       working_store))))) eq_refl).
Defined.

(** ** Requests *)

(** X5: whatever the network does, [get_product_price] makes exactly one
    request, for the URL it was given, and touches nothing but the request
    log and the console.  It returns a title only together with a price,
    and neither of them when the request raises or is answered with a
    status other than 200. *)
Theorem get_product_price_outcomes (f : string -> option float) (u : string)
    (s : State) :
  fetched (get_product_price f u s).2 = fetched s ++ [u] /\
  frame s (get_product_price f u s).2 /\
  (forall t, (get_product_price f u s).1.2 = Some t ->
     (get_product_price f u s).1.1 <> None) /\
  (forall e, net s (length (fetched s)) u = Raise e ->
     (get_product_price f u s).1 = (None, None)) /\
  (forall r, net s (length (fetched s)) u = Ok r -> status_code r <> 200 ->
     (get_product_price f u s).1 = (None, None)).
Proof.
  destruct (get_product_price_frame f u s) as [Hf Hl].
  split; [exact Hl|]. split; [exact Hf|].
  unfold get_product_price, session_get.
  change (net (print_colored MsgFetching s)) with (net s).
  change (fetched (print_colored MsgFetching s)) with (fetched s).
  split; [|split].
  - intros t. destruct (net s (length (fetched s)) u) as [r|e].
    + destruct (negb (status_code r =? 200)); [discriminate|].
      unfold parse.
      destruct (title_element (content r)), (price_element (content r)) as [txt|];
        cbn; try discriminate;
        destruct (f _); cbn; discriminate.
    + destruct e; discriminate.
  - intros e ->. destruct e; reflexivity.
  - intros r -> Hne. apply Z.eqb_neq in Hne. rewrite Hne. reflexivity.
Qed.

Lemma get_product_price_outcomes_witness :
  (get_product_price decimal_float "u1" (tracker None [] offline smtp_accepts)).1
    = (None, None).
Proof.
  exact (proj1 (proj2 (proj2 (proj2
    (get_product_price_outcomes decimal_float "u1" (tracker None [] offline smtp_accepts)))))
    RequestException eq_refl).
Defined.

Lemma attempted_forced (now : float) (ps : list Product) :
  attempted true now ps = ps.
Proof.
  unfold attempted. induction ps as [|p ps IH]; [reflexivity|].
  cbn. f_equal. exact IH.
Qed.

Lemma attempted_elem (force : bool) (now : float) (ps : list Product) (p : Product) :
  p ∈ attempted force now ps <-> p ∈ ps /\ recently_checked force now p = false.
Proof.
  unfold attempted. rewrite !list_elem_of_In, filter_In, negb_true_iff. reflexivity.
Qed.

Lemma attempted_length (force : bool) (now : float) (ps : list Product) :
  (length (attempted force now ps) <= length ps)%nat.
Proof. unfold attempted. apply List.filter_length_le. Qed.

(** X6: a forced [update_prices] requests the page of every product exactly
    once, in store order.  An unforced one requests at most one page per
    product, and always the page of a product that has no last_checked or
    whose last_checked is 0. *)
Theorem refresh_requests (f : string -> option float) (now : float) (s : State) :
  fetched (update_prices f true now s).2 = fetched s ++ (url <$> products s) /\
  (forall force,
     exists requested,
       fetched (update_prices f force now s).2 = fetched s ++ (url <$> requested) /\
       (length requested <= length (products s))%nat /\
       (forall p, p ∈ requested -> p ∈ products s) /\
       (forall p, p ∈ products s ->
          truthy float_truthy (last_checked p) = false -> p ∈ requested)).
Proof.
  assert (H : forall force,
    fetched (update_prices f force now s).2
      = fetched s ++ (url <$> attempted force now (products s))).
  { intros force.
    destruct (update_prices_products f force now s) as (_ & Hf & _).
    destruct (update_loop_frame f force now (products s) s) as (_ & Hl & _).
    rewrite Hf. exact Hl. }
  split.
  - rewrite H, attempted_forced. reflexivity.
  - intros force. exists (attempted force now (products s)).
    split; [apply H|]. split; [apply attempted_length|]. split.
    + intros p Hp. apply attempted_elem in Hp. tauto.
    + intros p Hp Hlc. apply attempted_elem. split; [exact Hp|].
      unfold recently_checked. destruct (last_checked p) as [lc|].
      * cbn in Hlc. rewrite Hlc. apply andb_false_r.
      * apply andb_false_r.
Qed.

Lemma refresh_requests_witness :
  exists requested,
    fetched (update_prices decimal_float false 1700000100 working_store).2
      = fetched working_store ++ (url <$> requested) /\
    newcomer ∈ requested.
Proof.
  destruct (proj2 (refresh_requests decimal_float 1700000100 working_store) false)
    as (requested & H1 & _ & _ & H4).
  exists requested. split; [exact H1|].
  apply H4; [|reflexivity].
  apply list_elem_of_further, list_elem_of_here.
Defined.

(** ** What a refresh changes *)

Lemma update_product_result (f : string -> option float) (force : bool)
    (now : float) (p : Product) (s : State) :
  ((update_product f force now p s).1.2 = false /\
   (update_product f force now p s).1.1 = p) \/
  ((update_product f force now p s).1.2 = true /\
   exists price ti,
     float_truthy price = true /\ str_truthy ti = true /\
     (update_product f force now p s).1.1 =
       overwritten now (Some price) (Some ti) p).
Proof.
  destruct (recently_checked force now p) eqn:E.
  - rewrite update_product_skipped by exact E. left. split; reflexivity.
  - rewrite update_product_attempted by exact E. cbn zeta.
    destruct (get_product_price f (url p) s) as [[price ti] s1]. cbn [fst snd].
    destruct (fetch_succeeded price ti) eqn:Hok; [|left; split; reflexivity].
    right. split; [reflexivity|]. unfold fetch_succeeded in Hok.
    destruct price as [price|]; [|discriminate].
    destruct ti as [ti|]; [|rewrite andb_false_r in Hok; discriminate].
    apply andb_prop in Hok. destruct Hok as [H1 H2].
    exists price, ti. auto.
Qed.

Lemma update_loop_cons (f : string -> option float) (force : bool) (now : float)
    (p : Product) (ps : list Product) (s : State) :
  update_loop f force now (p :: ps) s =
    let r := update_product f force now p s in
    let r' := update_loop f force now ps r.2 in
    ((r.1.1 :: r'.1.1, if r.1.2 then r.1.1 :: r'.1.2 else r'.1.2), r'.2).
Proof.
  cbn [update_loop].
  destruct (update_product f force now p s) as [[p' b] s1]. cbn [fst snd].
  destruct (update_loop f force now ps s1) as [[a u] s2]. reflexivity.
Qed.

Lemma update_loop_fresh (f : string -> option float) (force : bool) (now : float)
    (ps : list Product) (s : State) :
  Forall (fun p => last_checked p = Some now /\ fetched_product p)
         (update_loop f force now ps s).1.2 /\
  (update_loop f force now ps s).1.2 `sublist_of` (update_loop f force now ps s).1.1 /\
  Forall2 (fun p p' => url p' = url p /\ target_price p' = target_price p)
          ps (update_loop f force now ps s).1.1 /\
  ((update_loop f force now ps s).1.2 = [] -> (update_loop f force now ps s).1.1 = ps).
Proof.
  revert s. induction ps as [|p ps IH]; intros s.
  - cbn. repeat split; constructor.
  - rewrite update_loop_cons. cbn zeta.
    destruct (update_product_result f force now p s)
      as [[Hb Hp] | [Hb (price & ti & Hpr & Hti & Hp)]];
      destruct (IH (update_product f force now p s).2) as (IH1 & IH2 & IH3 & IH4);
      cbn [fst snd]; rewrite Hb, Hp.
    + split; [exact IH1|]. split; [apply sublist_cons; exact IH2|].
      split; [constructor; [split; reflexivity | exact IH3]|].
      intros Hnil. rewrite (IH4 Hnil). reflexivity.
    + split.
      { constructor; [|exact IH1]. split; [reflexivity|].
        unfold fetched_product, overwritten; cbn. repeat split; try assumption.
        discriminate. }
      split; [apply sublist_skip; exact IH2|].
      split; [constructor; [split; reflexivity | exact IH3]|].
      discriminate.
Qed.

(** X7: the list that [update_prices] returns is a sublist of the store as
    the call leaves it, in store order; every product in it carries the time
    of the call as last_checked, a non-zero price and a non-empty title.
    The call keeps the url and the target_price of every product and the
    order of the store. *)
Theorem updated_products_are_fresh (f : string -> option float) (force : bool)
    (now : float) (s : State) :
  (update_prices f force now s).1 `sublist_of` products (update_prices f force now s).2 /\
  Forall (fun p => last_checked p = Some now /\ fetched_product p)
         (update_prices f force now s).1 /\
  Forall2 (fun p p' => url p' = url p /\ target_price p' = target_price p)
          (products s) (products (update_prices f force now s).2).
Proof.
  destruct (update_prices_products f force now s) as (Hp & _ & _ & _ & Hu).
  destruct (update_loop_fresh f force now (products s) s) as (H1 & H2 & H3 & _).
  rewrite Hp, Hu. auto.
Qed.

Lemma update_prices_idle (f : string -> option float) (force : bool)
    (now : float) (s : State) :
  (update_prices f force now s).1 = [] -> frame s (update_prices f force now s).2.
Proof.
  unfold update_prices.
  destruct (update_loop_frame f force now (products s) s) as (Hf & _ & _).
  destruct (update_loop_fresh f force now (products s) s) as (_ & _ & _ & Hsame).
  destruct (update_loop f force now (products s) s) as [[a u] s1]. cbn [fst snd] in *.
  intros ->. cbn [nonempty]. rewrite (Hsame eq_refl).
  destruct Hf as (?&?&?&Hp&?&?&?&?&?). rewrite <- Hp, with_products_same.
  repeat split; assumption.
Qed.

Lemma update_prices_saved (f : string -> option float) (force : bool)
    (now : float) (s : State) :
  (update_prices f force now s).1 <> [] -> disk_write_error s = None ->
  synced (update_prices f force now s).2.
Proof.
  unfold update_prices.
  destruct (update_loop_frame f force now (products s) s) as (Hf & _ & _).
  destruct (update_loop f force now (products s) s) as [[a u] s1]. cbn [fst snd] in *.
  intros Hne Hw. destruct u as [|p u]; [congruence|]. cbn [nonempty].
  apply save_products_synced. cbn.
  destruct Hf as (_&_&_&_&_&Hw'&_). congruence.
Qed.

Lemma update_prices_write_error (f : string -> option float) (force : bool)
    (now : float) (s : State) :
  disk_write_error (update_prices f force now s).2 = disk_write_error s.
Proof.
  unfold update_prices.
  destruct (update_loop_frame f force now (products s) s) as (Hf & _ & _).
  destruct (update_loop f force now (products s) s) as [[a u] s1]. cbn [fst snd] in *.
  destruct Hf as (_&_&_&_&_&Hw'&_).
  unfold save_products. destruct (nonempty u); [|exact Hw'].
  cbn [disk_write_error with_products].
  destruct (disk_write_error s1) eqn:E; cbn; congruence.
Qed.

(** X8: [update_prices] writes the products file only when it updated a
    product.  When it returns the empty list, the store and the file are
    as before, only requests and console lines were added; when it returns
    a non-empty list and the file can be written, the file holds exactly
    the store as the call leaves it. *)
Theorem update_prices_saves_iff_updated (f : string -> option float)
    (force : bool) (now : float) (s : State) :
  ((update_prices f force now s).1 = [] ->
   frame s (update_prices f force now s).2) /\
  ((update_prices f force now s).1 <> [] -> disk_write_error s = None ->
   disk (update_prices f force now s).2
     = Stored (to_dict <$> products (update_prices f force now s).2)).
Proof.
  split; [apply update_prices_idle | apply update_prices_saved].
Qed.

Lemma update_prices_saves_iff_updated_witness :
  disk (update_prices decimal_float true 1700003600 cheap_store).2 = Missing /\
  disk (update_prices decimal_float false 1700000100 working_store).2
    = Stored (to_dict <$>
        products (update_prices decimal_float false 1700000100 working_store).2).
Proof.
  split.
  - destruct (proj1 (update_prices_saves_iff_updated decimal_float true 1700003600
                       cheap_store) eq_refl) as (_&_&_&_&Hd&_).
    exact Hd.
  - apply (proj2 (update_prices_saves_iff_updated decimal_float false 1700000100
                    working_store)); [|reflexivity].
    vm_compute. discriminate.
Defined.

(** ** Notifications *)

Lemma compose_priced (ps : list Product) :
  Forall (fun p => current_price p <> None) ps ->
  exists items, try_all compose_item ps = Ok items /\ Forall2 item_of ps items.
Proof.
  induction 1 as [|p ps Hp _ (items & Hi & Hf)].
  - exists []. split; [reflexivity | constructor].
  - destruct (current_price p) as [c|] eqn:E; [|congruence].
    assert (Hc : compose_item p
                 = Ok (mkItem (title p) c (target_price p)
                         (PrimFloat.sub (target_price p) c) (url p))).
    { unfold compose_item. rewrite E. reflexivity. }
    cbn [try_all]. rewrite Hc. cbn [mbind result_bind]. rewrite Hi.
    eexists. split; [reflexivity|].
    constructor; [|exact Hf]. unfold item_of. cbn. auto.
Qed.

Lemma send_email_sent (ps : list Product) (s : State) :
  ps <> [] ->
  Forall (fun p => current_price p <> None) ps ->
  (forall msg, smtp s (email_sender s) (email_password s) msg = Ok ()) ->
  exists items,
    Forall2 item_of ps items /\
    outbox (send_email ps s).2
      = outbox s ++ [mkEmail (email_sender s) (email_receiver s) items] /\
    console (send_email ps s).2 = console s ++ [MsgEmailSent].
Proof.
  intros Hne Hall Hsmtp. destruct (compose_priced ps Hall) as (items & Hi & Hf).
  exists items. split; [exact Hf|].
  unfold send_email. destruct ps as [|p ps]; [congruence|]. cbn [nonempty negb].
  unfold send_email_body. rewrite Hi, Hsmtp. split; reflexivity.
Qed.

Lemma send_email_outbox (ps : list Product) (s : State) :
  exists msgs, outbox (send_email ps s).2 = outbox s ++ msgs /\ (length msgs <= 1)%nat.
Proof.
  unfold send_email. destruct (negb (nonempty ps)).
  { exists []. rewrite app_nil_r. split; [reflexivity | cbn; lia]. }
  unfold send_email_body.
  destruct (try_all compose_item ps) as [items|e].
  - destruct (smtp s _ _ _) as [[]|e].
    + eexists [_]. split; [reflexivity | cbn; lia].
    + exists []. rewrite app_nil_r. split; [reflexivity | cbn; lia].
  - exists []. rewrite app_nil_r. split; [reflexivity | cbn; lia].
Qed.

(** X9: [send_email] on an empty list does nothing.  On a non-empty list of
    products that all have a price, when the mail server accepts the
    message, it sends exactly one message, from the sender to the receiver,
    with one entry per product in the order of the list; each entry shows
    the product's title, price, target and url and, as savings, the target
    minus the price. *)
Theorem send_email_delivers (ps : list Product) (s : State) :
  send_email [] s = (Ok (), s) /\
  (ps <> [] ->
   Forall (fun p => current_price p <> None) ps ->
   (forall msg, smtp s (email_sender s) (email_password s) msg = Ok ()) ->
   exists items,
     Forall2 item_of ps items /\
     outbox (send_email ps s).2
       = outbox s ++ [mkEmail (email_sender s) (email_receiver s) items] /\
     console (send_email ps s).2 = console s ++ [MsgEmailSent]).
Proof. split; [reflexivity | apply send_email_sent]. Qed.

Lemma send_email_delivers_witness :
  exists items,
    Forall2 item_of [gadget] items /\
    outbox (send_email [gadget] priced_store).2
      = [mkEmail "sender@example.com" (Some "me@example.com") items].
Proof.
  destruct (proj2 (send_email_delivers [gadget] priced_store))
    as (items & H1 & H2 & _).
  - discriminate.
  - constructor; [discriminate | constructor].
  - reflexivity.
  - exists items. split; [exact H1 | exact H2].
Defined.

Lemma update_prices_env (f : string -> option float) (force : bool)
    (now : float) (s : State) :
  email_sender (update_prices f force now s).2 = email_sender s /\
  email_password (update_prices f force now s).2 = email_password s /\
  email_receiver (update_prices f force now s).2 = email_receiver s /\
  smtp (update_prices f force now s).2 = smtp s /\
  outbox (update_prices f force now s).2 = outbox s.
Proof.
  unfold update_prices.
  destruct (update_loop_frame f force now (products s) s) as (Hf & _ & _).
  destruct (update_loop f force now (products s) s) as [[a u] s1]. cbn [fst snd] in *.
  destruct Hf as (H1&H2&H3&_&_&_&_&H8&H9).
  unfold save_products.
  destruct (nonempty u); [destruct (disk_write_error _)|]; cbn; auto.
Qed.

Lemma compute_price_drops_env (f : string -> option float) (force : bool)
    (now : float) (s : State) :
  email_sender (compute_price_drops f force now s).2 = email_sender s /\
  email_password (compute_price_drops f force now s).2 = email_password s /\
  email_receiver (compute_price_drops f force now s).2 = email_receiver s /\
  smtp (compute_price_drops f force now s).2 = smtp s /\
  outbox (compute_price_drops f force now s).2 = outbox s.
Proof.
  destruct (compute_price_drops_frame f force now s) as [(H1&H2&H3&_&_&_&_&H8&H9) _].
  destruct (update_prices_env f force now s) as (E1&E2&E3&E4&E5).
  repeat split; congruence.
Qed.

Lemma filter_none_dropped (ps : list Product) :
  Forall (fun p => price_dropped p = false) ps -> List.filter price_dropped ps = [].
Proof.
  induction 1 as [|p ps Hp _ IH]; [reflexivity|].
  cbn. rewrite Hp. exact IH.
Qed.

Lemma priced_or_not (ps : list Product) :
  Forall (fun p => current_price p <> None) ps \/
  Exists (fun p => current_price p = None) ps.
Proof.
  induction ps as [|p ps [IH | IH]].
  - left. constructor.
  - destruct (current_price p) eqn:E.
    + left. constructor; [congruence | exact IH].
    + right. apply Exists_cons_hd. exact E.
  - right. apply Exists_cons_tl. exact IH.
Qed.

(** X10: one call of [check_prices] sends at most one message, and none
    when no product of the refreshed store has a price at or below its
    target.  With a receiver set it makes the requests of [update_prices]
    and no other. *)
Theorem check_prices_notifies_once (f : string -> option float) (force : bool)
    (now : float) (s : State) :
  (exists msgs,
     outbox (check_prices f force now s).2 = outbox s ++ msgs /\
     (length msgs <= 1)%nat) /\
  (Forall (fun p => price_dropped p = false)
          (products (update_prices f force now s).2) ->
   outbox (check_prices f force now s).2 = outbox s) /\
  (truthy str_truthy (email_receiver s) = true ->
   fetched (check_prices f force now s).2
     = fetched (update_prices f force now s).2).
Proof.
  destruct (compute_price_drops_env f force now s) as (_&_&_&_&Ho).
  destruct (compute_price_drops_frame f force now s) as [_ Hfe].
  pose proof (compute_price_drops_result f force now s) as Hres.
  unfold check_prices.
  destruct (negb (truthy str_truthy (email_receiver s))) eqn:Hr.
  { cbn. split; [exists []; rewrite app_nil_r; split; [reflexivity | cbn; lia]|].
    split; [reflexivity|]. apply negb_true_iff in Hr. congruence. }
  destruct (compute_price_drops f force now s) as [[drops|e] s1]; cbn [fst snd] in *.
  - destruct (send_email_outbox drops s1) as (msgs & Hm & Hlen).
    destruct (send_email_total drops s1) as (_ & _ & _ & Hfs).
    split; [|split].
    + destruct (nonempty drops); cbn [snd].
      * exists msgs. rewrite Hm, Ho. auto.
      * exists []. rewrite app_nil_r. split; [exact Ho | cbn; lia].
    + intros Hnone.
      assert (Hd : drops = []).
      { destruct (priced_or_not (products (update_prices f force now s).2)) as [Hp | Hp].
        - rewrite (collect_price_drops_priced _ _ Hp) in Hres.
          rewrite (filter_none_dropped _ Hnone) in Hres. congruence.
        - rewrite (collect_price_drops_unpriced _ _ Hp) in Hres. discriminate. }
      subst drops. cbn. exact Ho.
    + intros _. destruct (nonempty drops); cbn [snd]; congruence.
  - split; [exists []; rewrite app_nil_r; split; [exact Ho | cbn; lia]|].
    split; [intros _; exact Ho | intros _; exact Hfe].
Qed.

Lemma check_prices_notifies_once_witness :
  outbox (check_prices decimal_float false 1700000100
            (tracker (Some "me@example.com") [widget] offline smtp_accepts)).2 = [].
Proof.
  apply (proj1 (proj2 (check_prices_notifies_once decimal_float false 1700000100
                         (tracker (Some "me@example.com") [widget] offline smtp_accepts)))).
  constructor; [reflexivity | constructor].
Defined.

(** X11: with a receiver set, every product priced after the refresh, at
    least one of them at or below its target and a mail server that accepts
    the message, [check_prices] returns normally and sends exactly one
    message, to the receiver, whose entries are the products at or below
    target, one entry each, in store order. *)
Theorem check_prices_sends_the_drops (f : string -> option float) (force : bool)
    (now : float) (s : State) :
  truthy str_truthy (email_receiver s) = true ->
  Forall (fun p => current_price p <> None)
         (products (update_prices f force now s).2) ->
  List.filter price_dropped (products (update_prices f force now s).2) <> [] ->
  (forall msg, smtp s (email_sender s) (email_password s) msg = Ok ()) ->
  exists items,
    Forall2 item_of
      (List.filter price_dropped (products (update_prices f force now s).2)) items /\
    (check_prices f force now s).1 = Ok () /\
    outbox (check_prices f force now s).2
      = outbox s ++ [mkEmail (email_sender s) (email_receiver s) items].
Proof.
  intros Hr Hall Hne Hsmtp.
  destruct (compute_price_drops_env f force now s) as (E1&E2&E3&E4&E5).
  pose proof (compute_price_drops_result f force now s) as Hres.
  rewrite (collect_price_drops_priced _ _ Hall) in Hres.
  unfold check_prices. rewrite Hr. cbn [negb].
  destruct (compute_price_drops f force now s) as [r s1]. cbn [fst snd] in *.
  subst r.
  set (drops := List.filter price_dropped (products (update_prices f force now s).2)) in *.
  assert (Hpr : Forall (fun p => current_price p <> None) drops).
  { rewrite Forall_forall in Hall |- *. intros p Hp. apply Hall.
    unfold drops in Hp. rewrite list_elem_of_In, filter_In, <- list_elem_of_In in Hp. tauto. }
  assert (Hs1 : forall msg, smtp s1 (email_sender s1) (email_password s1) msg = Ok ()).
  { intros msg. rewrite E1, E2, E4. apply Hsmtp. }
  destruct (send_email_sent drops s1 Hne Hpr Hs1) as (items & Hf & Ho & _).
  destruct (send_email_total drops s1) as (Hok & _).
  exists items. split; [exact Hf|].
  destruct drops as [|d drops]; [congruence|]. cbn [nonempty].
  split; [exact Hok|]. rewrite Ho. congruence.
Qed.

Lemma check_prices_sends_the_drops_witness :
  exists items,
    Forall2 item_of
      [mkProduct "u1" 50 (Some "Widget") (Some 45%float) (Some 1700003600%float)] items /\
    outbox (check_prices decimal_float true 1700003600 priced_store).2
      = [mkEmail "sender@example.com" (Some "me@example.com") items].
Proof.
  destruct (check_prices_sends_the_drops decimal_float true 1700003600 priced_store)
    as (items & H1 & _ & H2).
  - reflexivity.
  - constructor; [discriminate|]. constructor; [discriminate | constructor].
  - vm_compute. discriminate.
  - reflexivity.
  - exists items. split; [exact H1 | exact H2].
Defined.

(** ** Sessions of the menu of [tracker.py] *)

Lemma update_loop_keeps_fetched (f : string -> option float) (force : bool)
    (now : float) (ps : list Product) (s : State) :
  Forall fetched_product ps ->
  Forall fetched_product (update_loop f force now ps s).1.1.
Proof.
  intros H. revert s. induction H as [|p ps Hp _ IH]; intros s; [constructor|].
  rewrite update_loop_cons. cbn zeta. cbn [fst snd].
  constructor; [|apply IH].
  destruct (update_product_result f force now p s)
    as [[_ ->] | [_ (price & ti & Hpr & Hti & ->)]]; [exact Hp|].
  unfold fetched_product, overwritten. cbn. repeat split; try assumption. discriminate.
Qed.

Lemma update_prices_keeps_fetched (f : string -> option float) (force : bool)
    (now : float) (s : State) :
  Forall fetched_product (products s) ->
  Forall fetched_product (products (update_prices f force now s).2).
Proof.
  intros H. destruct (update_prices_products f force now s) as (Hp & _).
  rewrite Hp. apply update_loop_keeps_fetched. exact H.
Qed.

Lemma fetched_product_priced (ps : list Product) :
  Forall fetched_product ps -> Forall (fun p => current_price p <> None) ps.
Proof.
  intros H. eapply Forall_impl; [exact H|].
  intros p (_ & Hp & _) E. rewrite E in Hp. discriminate.
Qed.

Lemma send_email_write_error (ps : list Product) (s : State) :
  disk_write_error (send_email ps s).2 = disk_write_error s.
Proof.
  unfold send_email. destruct (negb (nonempty ps)); [reflexivity|].
  unfold send_email_body.
  destruct (try_all compose_item ps) as [items|e]; [|reflexivity].
  destruct (smtp s _ _ _) as [[]|e]; reflexivity.
Qed.

(** What [check_prices] leaves of the store, the file and its writability:
    what [update_prices] left when a receiver is set, and what there was
    otherwise. *)
Lemma check_prices_keeps (f : string -> option float) (force : bool)
    (now : float) (s : State) :
  let s1 := if truthy str_truthy (email_receiver s)
            then (update_prices f force now s).2 else s in
  products (check_prices f force now s).2 = products s1 /\
  disk (check_prices f force now s).2 = disk s1 /\
  disk_write_error (check_prices f force now s).2 = disk_write_error s1.
Proof.
  cbn zeta. destruct (truthy str_truthy (email_receiver s)) eqn:Hr.
  - destruct (check_prices_store f force now s Hr) as (_ & Hp & Hd).
    split; [exact Hp|]. split; [exact Hd|].
    destruct (compute_price_drops_frame f force now s) as [(_&_&_&_&_&Hw&_) _].
    unfold check_prices. rewrite Hr. cbn [negb].
    destruct (compute_price_drops f force now s) as [[drops|e] s1]; cbn [fst snd] in *;
      [|exact Hw].
    destruct (nonempty drops); cbn [snd]; [|exact Hw].
    rewrite send_email_write_error. exact Hw.
  - unfold check_prices. rewrite Hr. cbn. auto.
Qed.

Lemma add_product_cases (f : string -> option float) (now : float) (u : string)
    (t : float) (s : State) :
  ((add_product f now u t s).1 = false /\ frame s (add_product f now u t s).2) \/
  ((add_product f now u t s).1 = true /\
   exists price ti,
     float_truthy price = true /\ str_truthy ti = true /\
     (get_product_price f u s).1 = (Some price, Some ti) /\
     products (add_product f now u t s).2
       = products s ++ [mkProduct u t (Some ti) (Some price) (Some now)] /\
     (disk_write_error s = None -> synced (add_product f now u t s).2) /\
     disk_write_error (add_product f now u t s).2 = disk_write_error s).
Proof.
  destruct (get_product_price_frame f u s) as [Hf _].
  unfold add_product.
  destruct (get_product_price f u s) as [[price ti] s1]. cbn [fst snd] in *.
  destruct (truthy float_truthy price && truthy str_truthy ti) eqn:Hok.
  - right. split; [reflexivity|].
    destruct price as [price|]; [|discriminate].
    destruct ti as [ti|]; [|rewrite andb_false_r in Hok; discriminate].
    apply andb_prop in Hok. destruct Hok as [H1 H2].
    exists price, ti. split; [exact H1|]. split; [exact H2|]. split; [reflexivity|].
    destruct Hf as (_&_&_&Hp&_&Hw&_).
    split; [rewrite add_product_with_data_products, Hp; reflexivity|].
    split.
    + intros Hw0. cbn. apply save_products_synced. cbn. congruence.
    + cbn. unfold save_products. cbn [disk_write_error with_products].
      destruct (disk_write_error s1) eqn:E; cbn; congruence.
  - left. split; [reflexivity | exact Hf].
Qed.

Lemma persisted_same (s s' : State) :
  products s' = products s -> disk s' = disk s -> persisted s -> persisted s'.
Proof.
  unfold persisted. rewrite !init_products. intros -> ->. auto.
Qed.

Lemma remove_product_cases (index : Z) (s : State) :
  remove_product index s = (false, s) \/
  ((remove_product index s).1 = true /\
   products (remove_product index s).2 = delete (Z.to_nat index) (products s) /\
   (disk_write_error s = None -> synced (remove_product index s).2) /\
   disk_write_error (remove_product index s).2 = disk_write_error s).
Proof.
  unfold remove_product.
  destruct ((0 <=? index) && (index <? Z.of_nat (length (products s))));
    [right | left; reflexivity].
  cbn [fst snd]. split; [reflexivity|].
  split; [rewrite save_products_products; reflexivity|]. split.
  - intros Hw. apply save_products_synced. exact Hw.
  - unfold save_products. cbn [disk_write_error with_products].
    destruct (disk_write_error s) eqn:E; cbn; congruence.
Qed.

Lemma perform_keeps_fetched (f : string -> option float) (a : action) (s : State) :
  Forall fetched_product (products s) ->
  Forall fetched_product (products (perform f a s)).
Proof.
  intros H. destruct a as [now u t | index | now | address]; cbn [perform].
  - destruct (add_product_cases f now u t s)
      as [[_ (_&_&_&Hp&_)] | [_ (price & ti & H1 & H2 & _ & Hp & _)]].
    + rewrite Hp. exact H.
    + rewrite Hp. apply Forall_app. split; [exact H|].
      constructor; [|constructor]. unfold fetched_product. cbn.
      repeat split; try assumption. discriminate.
  - destruct (remove_product_cases index s) as [-> | (_ & Hp & _)]; [exact H|].
    rewrite Hp. apply Forall_delete. exact H.
  - destruct (check_prices_keeps f false now s) as (Hp & _). rewrite Hp.
    destruct (truthy str_truthy (email_receiver s)); [|exact H].
    apply update_prices_keeps_fetched. exact H.
  - exact H.
Qed.

Lemma perform_keeps_persisted (f : string -> option float) (a : action) (s : State) :
  disk_write_error s = None -> persisted s ->
  disk_write_error (perform f a s) = None /\ persisted (perform f a s).
Proof.
  intros Hw H. destruct a as [now u t | index | now | address]; cbn [perform].
  - destruct (add_product_cases f now u t s)
      as [[_ (_&_&_&Hp&Hd&Hw'&_)] | [_ (price & ti & _ & _ & _ & _ & Hs & Hw')]].
    + split; [congruence|]. apply (persisted_same s); assumption.
    + split; [congruence|]. apply synced_persisted, Hs, Hw.
  - destruct (remove_product_cases index s) as [-> | (_ & _ & Hs & Hw')];
      [split; assumption|].
    split; [congruence|]. apply synced_persisted, Hs, Hw.
  - destruct (check_prices_keeps f false now s) as (Hp & Hd & Hw').
    destruct (truthy str_truthy (email_receiver s)).
    + rewrite update_prices_write_error in Hw'. split; [congruence|].
      apply (persisted_same (update_prices f false now s).2); [assumption..|].
      destruct ((update_prices f false now s).1) eqn:Hu.
      * destruct (update_prices_idle f false now s Hu) as (_&_&_&Hp0&Hd0&_).
        apply (persisted_same s); assumption.
      * apply synced_persisted, update_prices_saved; [congruence | exact Hw].
    + split; [congruence|]. apply (persisted_same s); assumption.
  - split; [exact Hw|]. apply (persisted_same s); [reflexivity..|exact H].
Qed.

(** X12: in a session of the menu of [tracker.py] (adding, removing,
    checking, setting the receiver, in any order and with any inputs and
    network) that starts from a store whose products all come from a
    successful fetch, for instance the empty store, every product of the
    store still has a non-empty title, a non-zero price and a time stamp
    after every choice.  Hence a check made then, with a receiver set,
    never raises the TypeError of a null price. *)
Theorem session_products_stay_fetched (f : string -> option float)
    (actions : list action) (s : State) :
  Forall fetched_product (products s) ->
  Forall fetched_product (products (session f actions s)) /\
  (forall force now,
     truthy str_truthy (email_receiver (session f actions s)) = true ->
     (check_prices f force now (session f actions s)).1 = Ok ()).
Proof.
  intros H.
  assert (Hinv : Forall fetched_product (products (session f actions s))).
  { unfold session. revert s H. induction actions as [|a actions IH]; intros s H.
    - exact H.
    - cbn [fold_left]. apply IH. apply perform_keeps_fetched. exact H. }
  split; [exact Hinv|].
  intros force now Hr.
  destruct (check_prices_store f force now _ Hr) as (Hok & _).
  apply (Hok (List.filter price_dropped
                (products (update_prices f force now (session f actions s)).2))).
  rewrite compute_price_drops_result. apply collect_price_drops_priced.
  apply fetched_product_priced, update_prices_keeps_fetched. exact Hinv.
Qed.

Lemma session_products_stay_fetched_witness :
  Forall fetched_product
    (products (session decimal_float
       [Add 1700000000 "u7" 50; SetReceiver "me@example.com";
        Check 1700000100; Remove 0; Add 1700000200 "u8" 40]
       (tracker None [] (flaky widget_page) smtp_accepts))).
Proof.
  apply (session_products_stay_fetched decimal_float
           [Add 1700000000 "u7" 50; SetReceiver "me@example.com";
            Check 1700000100; Remove 0; Add 1700000200 "u8" 40]
           (tracker None [] (flaky widget_page) smtp_accepts)).
  constructor.
Defined.

(** X13: when the products file can be written, every choice of the menu
    of [tracker.py] leaves memory and file in step.  If a tracker started
    afresh would hold the products that are in memory, for instance an
    empty store with no file yet, the same is true after any session,
    whichever choices failed or succeeded. *)
Theorem session_stays_persisted (f : string -> option float)
    (actions : list action) (s : State) :
  disk_write_error s = None ->
  persisted s ->
  persisted (session f actions s) /\
  forall a b r,
    products (AmazonPriceTracker_init a b r (session f actions s))
      = products (session f actions s).
Proof.
  intros Hw H.
  assert (Hinv : disk_write_error (session f actions s) = None /\
                 persisted (session f actions s)).
  { unfold session. revert s Hw H. induction actions as [|a actions IH]; intros s Hw H.
    - split; assumption.
    - cbn [fold_left].
      destruct (perform_keeps_persisted f a s Hw H) as [Hw' H']. apply IH; assumption. }
  destruct Hinv as [_ Hp]. split; [exact Hp|].
  intros a b r. unfold persisted in Hp. rewrite init_products in Hp |- *. exact Hp.
Qed.

Lemma session_stays_persisted_witness :
  products (AmazonPriceTracker_init "sender@example.com" "app-password" None
    (session decimal_float
       [Add 1700000000 "u7" 50; Add 1700000050 "u8" 40; Remove 5; Remove 0]
       (tracker None [] (serve widget_page) smtp_accepts)))
  = [mkProduct "u8" 40 (Some "Widget") (Some 45%float) (Some 1700000050%float)].
Proof.
  rewrite (proj2 (session_stays_persisted decimal_float
    [Add 1700000000 "u7" 50; Add 1700000050 "u8" 40; Remove 5; Remove 0]
    (tracker None [] (serve widget_page) smtp_accepts) eq_refl eq_refl)).
  reflexivity.
Defined.

(** ** The menus of [cli.py] *)

(** X14: [format_time] splits a number of seconds into hours, minutes below
    60 and seconds below 60 that add up to it again.  It shows the three
    parts from 3600 seconds on, minutes and seconds from 60 seconds on and
    the seconds alone below that. *)
Theorem format_time_parts (seconds : Z) :
  3600 * (seconds / 3600) + 60 * ((seconds mod 3600) / 60) + seconds mod 60 = seconds /\
  0 <= (seconds mod 3600) / 60 < 60 /\
  0 <= seconds mod 60 < 60 /\
  (3600 <= seconds ->
   format_time seconds =
     str_of_int (seconds / 3600) +:+ "h " +:+
     str_of_int ((seconds mod 3600) / 60) +:+ "m " +:+
     str_of_int (seconds mod 60) +:+ "s") /\
  (60 <= seconds < 3600 ->
   format_time seconds =
     str_of_int (seconds / 60) +:+ "m " +:+ str_of_int (seconds mod 60) +:+ "s") /\
  (0 <= seconds < 60 -> format_time seconds = str_of_int seconds +:+ "s").
Proof.
  split; [Z.div_mod_to_equations; lia|].
  split; [Z.div_mod_to_equations; lia|].
  split; [Z.div_mod_to_equations; lia|].
  unfold format_time. split; [|split].
  - intros H. assert (E : (0 <? seconds / 3600) = true).
    { apply Z.ltb_lt. Z.div_mod_to_equations. lia. }
    rewrite E. reflexivity.
  - intros H. assert (E : (0 <? seconds / 3600) = false).
    { apply Z.ltb_ge. Z.div_mod_to_equations. lia. }
    assert (E' : (0 <? (seconds mod 3600) / 60) = true).
    { apply Z.ltb_lt. Z.div_mod_to_equations. lia. }
    assert (Em : (seconds mod 3600) / 60 = seconds / 60).
    { Z.div_mod_to_equations. lia. }
    rewrite E, E', Em. reflexivity.
  - intros H. assert (E : (0 <? seconds / 3600) = false).
    { apply Z.ltb_ge. Z.div_mod_to_equations. lia. }
    assert (E' : (0 <? (seconds mod 3600) / 60) = false).
    { apply Z.ltb_ge. Z.div_mod_to_equations. lia. }
    assert (Em : seconds mod 60 = seconds).
    { Z.div_mod_to_equations. lia. }
    rewrite E, E', Em. reflexivity.
Qed.

Lemma format_time_parts_witness :
  format_time 3725 = "1h 2m 5s" /\ format_time 125 = "2m 5s" /\ format_time 59 = "59s".
Proof.
  pose proof (format_time_parts 3725) as (_ & _ & _ & H1 & _).
  pose proof (format_time_parts 125) as (_ & _ & _ & _ & H2 & _).
  pose proof (format_time_parts 59) as (_ & _ & _ & _ & _ & H3).
  split; [rewrite H1 by lia; reflexivity|].
  split; [rewrite H2 by lia; reflexivity|].
  rewrite H3 by lia. reflexivity.
Defined.

Lemma countdown_from_pos (seconds : Z) :
  0 < seconds -> countdown_from seconds = seconds :: countdown_from (seconds - 1).
Proof.
  intros H. unfold countdown_from.
  replace (Z.to_nat seconds) with (S (Z.to_nat (seconds - 1))) by lia.
  cbn [seq fmap list_fmap]. f_equal; [lia|].
  rewrite <- seq_shift. change (map S ?l) with (S <$> l).
  rewrite <- list_fmap_compose. apply list_fmap_ext. intros _ i _. cbn. lia.
Qed.

Lemma countdown_from_nonpos (seconds : Z) : seconds <= 0 -> countdown_from seconds = [].
Proof.
  intros H. unfold countdown_from. replace (Z.to_nat seconds) with O by lia. reflexivity.
Qed.

(** X15: [display_countdown] ends once the [while] test has been made
    [seconds + 1] times.  It shows one frame per second left, counting
    down from [seconds] to 1, sleeps after each frame and finally clears
    the line; for a number of seconds that is zero or negative it only
    clears the line. *)
Theorem display_countdown_runs (fuel : nat) (seconds : Z) :
  (Z.to_nat seconds < fuel)%nat ->
  display_countdown fuel seconds =
    Some (concat ((fun k => [Frame (format_time k); Sleep]) <$> countdown_from seconds)
          ++ [ClearLine]) /\
  length (countdown_from seconds) = Z.to_nat seconds.
Proof.
  intros Hfuel. split.
  - revert seconds Hfuel. induction fuel as [|fuel IH]; intros seconds Hfuel; [lia|].
    cbn [display_countdown]. destruct (0 <? seconds) eqn:E.
    + apply Z.ltb_lt in E. rewrite IH by lia. cbn [mbind option_bind].
      rewrite (countdown_from_pos seconds E). reflexivity.
    + apply Z.ltb_ge in E. rewrite (countdown_from_nonpos seconds E). reflexivity.
  - unfold countdown_from. rewrite length_fmap, length_seq. reflexivity.
Qed.

Lemma display_countdown_runs_witness :
  display_countdown 4 3 =
    Some [Frame "3s"; Sleep; Frame "2s"; Sleep; Frame "1s"; Sleep; ClearLine].
Proof.
  rewrite (proj1 (display_countdown_runs 4 3 ltac:(cbn; lia))). reflexivity.
Defined.

Lemma get_valid_price_cons (f : string -> option float) (cur : option float)
    (line : string) (inputs : list string) :
  get_valid_price f cur (line :: inputs) =
    let prompt := PromptPrice (if truthy float_truthy cur then cur else None) in
    let r := get_valid_price f cur inputs in
    if negb (str_truthy (strip line)) && truthy float_truthy cur then
      (cur, inputs, [prompt])
    else
      match f (strip line) with
      | Some price =>
          if PrimFloat.leb price 0
          then (r.1.1, r.1.2, prompt :: MsgPriceNotPositive :: r.2)
          else (Some price, inputs, [prompt])
      | None => (r.1.1, r.1.2, prompt :: MsgNotANumber :: r.2)
      end.
Proof.
  cbn [get_valid_price]. destruct (get_valid_price f cur inputs) as [[r rest] out].
  reflexivity.
Qed.

Lemma blank_line_test (cur : option float) (line : string) :
  negb (str_truthy (strip line)) && truthy float_truthy cur = true <->
  strip line = "" /\ truthy float_truthy cur = true.
Proof.
  rewrite andb_true_iff. destruct (strip line); cbn; split; intros [H1 H2];
    split; try assumption; try reflexivity; discriminate.
Qed.

(** The lines that [get_valid_price] reads: those it rejects, then, unless
    the input ends, the first one it accepts. *)
Lemma get_valid_price_first (f : string -> option float) (cur : option float)
    (inputs : list string) :
  match (get_valid_price f cur inputs).1.1 with
  | Some price =>
      exists rejected line,
        inputs = rejected ++ line :: (get_valid_price f cur inputs).1.2 /\
        Forall (fun l => forall q, ~ line_yields f cur l q) rejected /\
        line_yields f cur line price /\
        length (get_valid_price f cur inputs).2 = (2 * length rejected + 1)%nat
  | None =>
      (get_valid_price f cur inputs).1.2 = [] /\
      Forall (fun l => forall q, ~ line_yields f cur l q) inputs /\
      length (get_valid_price f cur inputs).2 = (2 * length inputs + 1)%nat
  end.
Proof.
  induction inputs as [|line inputs IH].
  - cbn. split; [reflexivity|]. split; [constructor | reflexivity].
  - rewrite get_valid_price_cons. cbn zeta.
    destruct (negb (str_truthy (strip line)) && truthy float_truthy cur) eqn:Hblank.
    + apply blank_line_test in Hblank. destruct Hblank as [Hb Hcur]. cbn [fst snd].
      destruct cur as [price|]; [|discriminate].
      exists [], line. split; [reflexivity|]. split; [constructor|].
      split; [left; auto | reflexivity].
    + assert (Hnb : ~ (strip line = "" /\ truthy float_truthy cur = true)).
      { intros H. apply blank_line_test in H. congruence. }
      assert (Hrej :
        (forall q, ~ line_yields f cur line q) ->
        match (get_valid_price f cur inputs).1.1 with
        | Some price =>
            exists rejected l,
              line :: inputs = rejected ++ l :: (get_valid_price f cur inputs).1.2 /\
              Forall (fun l0 => forall q, ~ line_yields f cur l0 q) rejected /\
              line_yields f cur l price /\
              S (S (length (get_valid_price f cur inputs).2))
                = (2 * length rejected + 1)%nat
        | None =>
            (get_valid_price f cur inputs).1.2 = [] /\
            Forall (fun l0 => forall q, ~ line_yields f cur l0 q) (line :: inputs) /\
            S (S (length (get_valid_price f cur inputs).2))
              = (2 * length (line :: inputs) + 1)%nat
        end).
      { intros Hno. destruct ((get_valid_price f cur inputs).1.1) as [price|].
        - destruct IH as (rejected & l & Hin & Hall & Hy & Hlen).
          exists (line :: rejected), l. split; [cbn; f_equal; exact Hin|].
          split; [constructor; assumption|]. split; [exact Hy|].
          cbn [length]. lia.
        - destruct IH as (Hr & Hall & Hlen). split; [exact Hr|].
          split; [constructor; assumption|]. cbn [length]. lia. }
      destruct (f (strip line)) as [price|] eqn:Hf.
      * destruct (PrimFloat.leb price 0) eqn:Hle; cbn [fst snd length].
        -- apply Hrej.
           intros q [(Hb & Hc & _) | (_ & Hq & Hpos)]; [apply Hnb; auto|].
           congruence.
        -- exists [], line. split; [reflexivity|]. split; [constructor|].
           split; [right; auto | reflexivity].
      * cbn [fst snd length]. apply Hrej.
        intros q [(Hb & Hc & _) | (_ & Hq & _)]; [apply Hnb; auto | congruence].
Qed.

(** X16: [get_valid_price] reads the lines in order and stops at the first
    one it accepts; every line before it was rejected, with one message
    each.  It returns either the current price, when that line is blank
    and there is a (non-zero) current price, or the number that the line
    converts to, and then only one for which [price <= 0] is false.  It
    reaches the end of the input only if no line was acceptable. *)
Theorem get_valid_price_accepts (f : string -> option float) (cur : option float)
    (inputs : list string) :
  (forall price, (get_valid_price f cur inputs).1.1 = Some price ->
     (truthy float_truthy cur = true /\ cur = Some price) \/
     (PrimFloat.leb price 0 = false /\
      exists line, line ∈ inputs /\ f (strip line) = Some price)) /\
  (exists read, inputs = read ++ (get_valid_price f cur inputs).1.2) /\
  ((get_valid_price f cur inputs).1.1 = None ->
   (get_valid_price f cur inputs).1.2 = [] /\
   Forall (fun line => ~ valid_price_line f line) inputs) /\
  ((exists line, line ∈ inputs /\ valid_price_line f line) ->
   (get_valid_price f cur inputs).1.1 <> None) /\
  (forall price, (get_valid_price f cur inputs).1.1 = Some price ->
     exists rejected line,
       inputs = rejected ++ line :: (get_valid_price f cur inputs).1.2 /\
       Forall (fun l => forall q, ~ line_yields f cur l q) rejected /\
       line_yields f cur line price /\
       length (get_valid_price f cur inputs).2 = (2 * length rejected + 1)%nat) /\
  ((get_valid_price f cur inputs).1.1 = None ->
   Forall (fun l => forall q, ~ line_yields f cur l q) inputs /\
   length (get_valid_price f cur inputs).2 = (2 * length inputs + 1)%nat).
Proof.
  assert (H : (forall price, (get_valid_price f cur inputs).1.1 = Some price ->
     (truthy float_truthy cur = true /\ cur = Some price) \/
     (PrimFloat.leb price 0 = false /\
      exists line, line ∈ inputs /\ f (strip line) = Some price)) /\
    (exists read, inputs = read ++ (get_valid_price f cur inputs).1.2) /\
    ((get_valid_price f cur inputs).1.1 = None ->
     (get_valid_price f cur inputs).1.2 = [] /\
     Forall (fun line => ~ valid_price_line f line) inputs)).
  { induction inputs as [|line inputs (IH1 & (read & IH2) & IH3)].
    - cbn. split; [discriminate|]. split; [exists []; reflexivity|].
      intros _. split; [reflexivity | constructor].
    - rewrite get_valid_price_cons. cbn zeta.
      destruct (negb (str_truthy (strip line)) && truthy float_truthy cur) eqn:Hblank.
      + apply andb_prop in Hblank. destruct Hblank as [_ Hcur]. cbn [fst snd].
        split; [intros price Hp; left; auto|].
        split; [exists [line]; reflexivity|].
        intros Hnone. rewrite Hnone in Hcur. discriminate.
      + destruct (f (strip line)) as [price|] eqn:Hf.
        * destruct (PrimFloat.leb price 0) eqn:Hle; cbn [fst snd].
          -- split.
             { intros p Hp. destruct (IH1 p Hp) as [Hl | (Hl & l & Hin & Hfl)];
                 [left; exact Hl|].
               right. split; [exact Hl|]. exists l. split; [|exact Hfl].
               apply list_elem_of_further. exact Hin. }
             split; [exists (line :: read); cbn; f_equal; exact IH2|].
             intros Hnone. destruct (IH3 Hnone) as [Hr Hall]. split; [exact Hr|].
             constructor; [|exact Hall].
             intros (p & Hp & Hpos). congruence.
          -- split.
             { intros p Hp. injection Hp as <-. right. split; [exact Hle|].
               exists line. split; [apply list_elem_of_here | exact Hf]. }
             split; [exists [line]; reflexivity|]. discriminate.
        * cbn [fst snd]. split.
          { intros p Hp. destruct (IH1 p Hp) as [Hl | (Hl & l & Hin & Hfl)];
              [left; exact Hl|].
            right. split; [exact Hl|]. exists l. split; [|exact Hfl].
            apply list_elem_of_further. exact Hin. }
          split; [exists (line :: read); cbn; f_equal; exact IH2|].
          intros Hnone. destruct (IH3 Hnone) as [Hr Hall]. split; [exact Hr|].
          constructor; [|exact Hall].
          intros (p & Hp & Hpos). congruence. }
  destruct H as (H1 & H2 & H3). split; [exact H1|]. split; [exact H2|].
  split; [exact H3|]. split.
  { intros (line & Hin & Hvalid) Hnone. destruct (H3 Hnone) as [_ Hall].
    rewrite Forall_forall in Hall. exact (Hall line Hin Hvalid). }
  pose proof (get_valid_price_first f cur inputs) as Hfirst. split.
  - intros price Hp. rewrite Hp in Hfirst. exact Hfirst.
  - intros Hnone. rewrite Hnone in Hfirst. tauto.
Qed.


Lemma get_valid_price_accepts_witness :
  (get_valid_price decimal_float None ["abc"; "0"; " 40 "; "7"]).1.1 <> None /\
  exists rejected line,
    ["abc"; "0"; " 40 "; "7"] = rejected ++ line :: ["7"] /\
    line_yields decimal_float None line 40.
Proof.
  split.
  - apply (proj1 (proj2 (proj2 (proj2
      (get_valid_price_accepts decimal_float None ["abc"; "0"; " 40 "; "7"]))))).
    exists " 40 ". split.
    + do 2 apply list_elem_of_further. apply list_elem_of_here.
    + exists 40%float. split; reflexivity.
  - destruct (proj1 (proj2 (proj2 (proj2 (proj2
      (get_valid_price_accepts decimal_float None ["abc"; "0"; " 40 "; "7"])))))
      40%float eq_refl) as (rejected & line & H1 & _ & H3 & _).
    exists rejected, line. split; [exact H1 | exact H3].
Defined.

Lemma read_product_number_cons (g : string -> option Z) (n : nat) (line : string)
    (inputs : list string) :
  read_product_number g n (line :: inputs) =
    let r := read_product_number g n inputs in
    match g (strip line) with
    | Some k =>
        if (0 <=? k - 1) && (k - 1 <? Z.of_nat n)
        then (Some (k - 1), inputs, [PromptProductNumber])
        else (r.1.1, r.1.2, PromptProductNumber :: MsgInvalidProductNumber :: r.2)
    | None => (r.1.1, r.1.2, PromptProductNumber :: MsgNotANumber :: r.2)
    end.
Proof.
  cbn [read_product_number]. destruct (read_product_number g n inputs) as [[r rest] out].
  reflexivity.
Qed.

Lemma read_product_number_range (g : string -> option Z) (n : nat)
    (inputs : list string) (index : Z) :
  (read_product_number g n inputs).1.1 = Some index ->
  0 <= index < Z.of_nat n /\
  exists line, line ∈ inputs /\ g (strip line) = Some (index + 1).
Proof.
  induction inputs as [|line inputs IH]; [discriminate|].
  rewrite read_product_number_cons. cbn zeta.
  assert (Hrest : (read_product_number g n inputs).1.1 = Some index ->
    0 <= index < Z.of_nat n /\
    exists l, l ∈ line :: inputs /\ g (strip l) = Some (index + 1)).
  { intros H. destruct (IH H) as (Hr & l & Hin & Hl). split; [exact Hr|].
    exists l. split; [apply list_elem_of_further; exact Hin | exact Hl]. }
  destruct (g (strip line)) as [k|] eqn:Hg; [|exact Hrest].
  destruct ((0 <=? k - 1) && (k - 1 <? Z.of_nat n)) eqn:Hin; [|exact Hrest].
  cbn [fst]. intros H. injection H as <-.
  apply andb_prop in Hin. destruct Hin as [H1 H2].
  apply Z.leb_le in H1. apply Z.ltb_lt in H2. split; [lia|].
  exists line. split; [apply list_elem_of_here|]. rewrite Hg. f_equal. lia.
Qed.

(** X17: the number that the menu's removal loop accepts is the number
    typed on one of the lines, less one, and is always a valid index of
    the store; so the [remove_product] call made with it returns [True]
    and shortens the store by exactly one product. *)
Theorem menu_removal_succeeds (g : string -> option Z) (inputs : list string)
    (s : State) (index : Z) :
  (read_product_number g (length (products s)) inputs).1.1 = Some index ->
  0 <= index < Z.of_nat (length (products s)) /\
  (exists line, line ∈ inputs /\ g (strip line) = Some (index + 1)) /\
  (remove_product index s).1 = true /\
  S (length (products (remove_product index s).2)) = length (products s).
Proof.
  intros H. destruct (read_product_number_range g _ inputs index H) as [Hr Hl].
  split; [exact Hr|]. split; [exact Hl|].
  destruct (remove_product_cases index s) as [E | (Ht & Hp & _)].
  - exfalso. unfold remove_product in E.
    assert (Hin : (0 <=? index) && (index <? Z.of_nat (length (products s))) = true).
    { apply andb_true_intro. split; [apply Z.leb_le | apply Z.ltb_lt]; lia. }
    rewrite Hin in E. discriminate E.
  - split; [exact Ht|]. rewrite Hp, length_delete by (apply lookup_lt_is_Some; lia).
    assert (0 < length (products s))%nat by lia. lia.
Qed.

Lemma menu_removal_succeeds_witness :
  (remove_product 1 (tracker None [widget; gadget; newcomer] offline smtp_accepts)).1
    = true.
Proof.
  exact (proj1 (proj2 (proj2
    (menu_removal_succeeds decimal_int ["x"; "0"; "4"; " 2 "]
       (tracker None [widget; gadget; newcomer] offline smtp_accepts) 1 eq_refl)))).
Defined.

Lemma str_has_app (c : ascii) (a b : string) :
  str_has c (a +:+ b) = str_has c a || str_has c b.
Proof.
  induction a as [|d a IH]; [reflexivity|].
  simpl. rewrite IH. apply orb_assoc.
Qed.

Lemma str_has_before_char (c : ascii) (s : string) :
  str_has c (before_char c s) = false.
Proof.
  induction s as [|d s IH]; [reflexivity|].
  cbn. destruct (Ascii.eqb c d) eqn:E; [reflexivity|].
  cbn. rewrite E. exact IH.
Qed.

Lemma str_has_take (c : ascii) (n : nat) (s : string) :
  str_has c s = false -> str_has c (str_take n s) = false.
Proof.
  revert s. induction n as [|n IH]; intros [|d s]; try reflexivity.
  cbn. intros H. apply orb_false_elim in H. destruct H as [H1 H2].
  rewrite H1. cbn. apply IH. exact H2.
Qed.

Lemma length_str_take (n : nat) (s : string) :
  (String.length (str_take n s) <= n)%nat.
Proof.
  revert s. induction n as [|n IH]; intros [|d s]; cbn; try lia.
  specialize (IH s). lia.
Qed.

Lemma length_str_app (a b : string) :
  String.length (a +:+ b) = (String.length a + String.length b)%nat.
Proof.
  induction a as [|d a IH]; [reflexivity|].
  simpl. rewrite IH. reflexivity.
Qed.

(** X18: [format_product_display] raises TypeError when the product has no
    title or no price, which is the case of a product read from a file with
    nulls.  Otherwise, when the time stamp (if there is a non-zero one) can
    be converted to local time, it returns between three and six lines, the
    first one with the title cut to 100 characters; the savings line is
    there exactly when the price minus the target is above zero, and the
    URL line, only there when asked for, shows the URL up to its first
    question mark, cut to 100 characters and followed by three dots. *)
Theorem format_product_display_lines (tf : float -> result string) (p : Product)
    (index : option Z) (show_url : bool) :
  (title p = None \/ current_price p = None ->
   format_product_display tf p index show_url = Raise TypeError) /\
  (forall t c, title p = Some t -> current_price p = Some c ->
     (forall lc, last_checked p = Some lc -> float_truthy lc = true ->
        exists txt, tf lc = Ok txt) ->
     exists lines,
       format_product_display tf p index show_url
         = Ok (LineTitle index (str_take 100 t +:+ "...") :: lines) /\
       (2 <= length lines <= 5)%nat /\
       (forall sv, LineSavings sv ∈ lines <->
          sv = PrimFloat.sub c (target_price p) /\ PrimFloat.ltb 0 sv = true) /\
       (forall shown, LineUrl shown ∈ lines ->
          show_url = true /\
          shown = str_take 100 (before_char "?" (url p)) +:+ "..." /\
          str_has "?" shown = false /\
          (String.length shown <= 103)%nat) /\
       (show_url = true ->
        LineUrl (str_take 100 (before_char "?" (url p)) +:+ "...") ∈ lines)).
Proof.
  split.
  - unfold format_product_display. intros [-> | Hc]; [reflexivity|].
    rewrite Hc. destruct (title p); reflexivity.
  - intros t c Ht Hc Htf.
    set (shown := str_take 100 (before_char "?" (url p)) +:+ "...").
    set (sv0 := PrimFloat.sub c (target_price p)).
    set (A := if PrimFloat.ltb 0 sv0 then [LineSavings sv0] else []).
    set (B := if show_url then [LineUrl shown] else []).
    assert (HC : exists C, (length C <= 1)%nat /\
      (forall sv, LineSavings sv ∉ C) /\ (forall sh, LineUrl sh ∉ C) /\
      forall lines,
        match last_checked p with
        | Some lc =>
            if float_truthy lc then
              match tf lc with
              | Ok last_check => Ok (lines ++ [LineLastChecked last_check])
              | Raise e => Raise e
              end
            else Ok lines
        | None => Ok lines
        end = Ok (lines ++ C)).
    { destruct (last_checked p) as [lc|] eqn:Elc.
      - destruct (float_truthy lc) eqn:Etr.
        + destruct (Htf lc eq_refl Etr) as [txt Htxt]. exists [LineLastChecked txt].
          split; [cbn; lia|].
          split; [intros sv H; apply list_elem_of_singleton in H; discriminate|].
          split; [intros sh H; apply list_elem_of_singleton in H; discriminate|].
          intros lines. rewrite Htxt. reflexivity.
        + exists []. split; [cbn; lia|].
          split; [intros sv H; inversion H|]. split; [intros sh H; inversion H|].
          intros lines. rewrite app_nil_r. reflexivity.
      - exists []. split; [cbn; lia|].
        split; [intros sv H; inversion H|]. split; [intros sh H; inversion H|].
        intros lines. rewrite app_nil_r. reflexivity. }
    destruct HC as (C & HlenC & HsvC & HurlC & HC).
    assert (Hq : str_has "?" shown = false).
    { unfold shown. rewrite str_has_app, str_has_take by apply str_has_before_char.
      reflexivity. }
    assert (Hlen : (String.length shown <= 103)%nat).
    { unfold shown. rewrite length_str_app.
      pose proof (length_str_take 100 (before_char "?" (url p))).
      cbn [String.length]. lia. }
    exists ([LineCurrentPrice (Some c); LineTargetPrice (target_price p)] ++ A ++ B ++ C).
    split; [|split; [|split; [|split]]].
    + unfold format_product_display. rewrite Ht, Hc. fold sv0 shown.
      rewrite HC. unfold A, B.
      destruct (PrimFloat.ltb 0 sv0), show_url; reflexivity.
    + rewrite !length_app. unfold A, B.
      destruct (PrimFloat.ltb 0 sv0), show_url; cbn; lia.
    + intros sv. rewrite !elem_of_app. unfold A, B. specialize (HsvC sv).
      destruct (PrimFloat.ltb 0 sv0) eqn:Hsv, show_url;
        rewrite ?elem_of_cons, ?elem_of_nil; split;
        try (intros [-> Hpos]; fold sv0 in Hpos |- *); try congruence;
        try (intros H; decompose [or] H; try discriminate; try contradiction);
        try (match goal with H : LineSavings _ = LineSavings _ |- _ =>
               injection H as -> end; split; [reflexivity | exact Hsv]);
        auto 10.
    + intros sh. rewrite !elem_of_app. unfold A, B. specialize (HurlC sh).
      destruct (PrimFloat.ltb 0 sv0), show_url;
        rewrite ?elem_of_cons, ?elem_of_nil;
        intros H; decompose [or] H; try discriminate; try contradiction;
        match goal with H : LineUrl _ = LineUrl _ |- _ => injection H as -> end;
        auto.
    + intros ->. rewrite !elem_of_app. unfold B.
      right. right. left. apply list_elem_of_here.
Qed.

Lemma format_product_display_lines_witness :
  format_product_display fixed_local_time newcomer (Some 1) true = Raise TypeError /\
  exists lines,
    format_product_display fixed_local_time
      (mkProduct "https://a.example/dp/B0?ref=x" 50 (Some "Widget") (Some 60%float)
         (Some 1700000000%float)) None true
      = Ok (LineTitle None "Widget..." :: lines) /\
    LineUrl "https://a.example/dp/B0..." ∈ lines.
Proof.
  split.
  - apply (proj1 (format_product_display_lines fixed_local_time newcomer (Some 1) true)).
    left. reflexivity.
  - destruct (proj2 (format_product_display_lines fixed_local_time
        (mkProduct "https://a.example/dp/B0?ref=x" 50 (Some "Widget") (Some 60%float)
           (Some 1700000000%float)) None true)
        "Widget" 60%float eq_refl eq_refl) as (lines & H1 & _ & _ & _ & H5).
    + intros lc Hlc _. injection Hlc as <-. exists "2023-11-14 22:13:20". reflexivity.
    + exists lines. split; [exact H1 | exact (H5 eq_refl)].
Defined.

Lemma add_product_fetched (f : string -> option float) (now : float) (u : string)
    (t : float) (s : State) :
  fetched (add_product f now u t s).2 = fetched s ++ [u].
Proof.
  destruct (get_product_price_frame f u s) as [_ Hl].
  unfold add_product.
  destruct (get_product_price f u s) as [[price ti] s1]. cbn [fst snd] in *.
  destruct (truthy float_truthy price && truthy str_truthy ti); [|exact Hl].
  cbn. unfold save_products. cbn [disk_write_error with_products].
  destruct (disk_write_error s1); cbn; exact Hl.
Qed.

(** X19: [add_product] makes exactly one request, for the URL given.  It
    returns [True] exactly when that fetch yields a non-zero price and a
    non-empty title; the store then grows at its end by one product with
    the URL and target given, the title and price fetched and the time of
    the call, and is saved.  Otherwise store and file are left alone. *)
Theorem add_product_outcome (f : string -> option float) (now : float)
    (u : string) (t : float) (s : State) :
  fetched (add_product f now u t s).2 = fetched s ++ [u] /\
  ((add_product f now u t s).1 = true <->
   fetch_succeeded (get_product_price f u s).1.1 (get_product_price f u s).1.2 = true) /\
  ((add_product f now u t s).1 = true ->
   exists price ti,
     (get_product_price f u s).1 = (Some price, Some ti) /\
     products (add_product f now u t s).2
       = products s ++ [mkProduct u t (Some ti) (Some price) (Some now)] /\
     (disk_write_error s = None ->
      disk (add_product f now u t s).2
        = Stored (to_dict <$> products (add_product f now u t s).2))) /\
  ((add_product f now u t s).1 = false -> frame s (add_product f now u t s).2).
Proof.
  split; [apply add_product_fetched|]. split; [|split].
  - unfold add_product, fetch_succeeded.
    destruct (get_product_price f u s) as [[price ti] s1]. cbn [fst snd].
    destruct (truthy float_truthy price && truthy str_truthy ti); cbn; split; congruence.
  - intros Ht.
    destruct (add_product_cases f now u t s)
      as [[Hf _] | [_ (price & ti & _ & _ & Hg & Hp & Hs & _)]]; [congruence|].
    exists price, ti. auto.
  - intros Hfalse.
    destruct (add_product_cases f now u t s) as [[_ Hfr] | [Ht _]];
      [exact Hfr | congruence].
Qed.

Lemma add_product_outcome_witness :
  products (add_product decimal_float 1700000000 "u7" 50
              (tracker None [] (serve widget_page) smtp_accepts)).2
    = [mkProduct "u7" 50 (Some "Widget") (Some 45%float) (Some 1700000000%float)].
Proof.
  destruct (proj1 (proj2 (proj2
    (add_product_outcome decimal_float 1700000000 "u7" 50
       (tracker None [] (serve widget_page) smtp_accepts)))) eq_refl)
    as (price & ti & Hg & Hp & _).
  rewrite Hp. injection Hg as <- <-. reflexivity.
Defined.
